(** * BLEServer: the GATT server of the ESP32 BLE Arduino library

    A shallow embedding of [src/BLEServer.cpp] and the properties of its
    connection table, its event dispatcher and its blocking calls.

    The C++ object is a record of its member variables.  The two execution
    contexts of the program (the application task that calls the blocking
    functions, and the Bluetooth task that calls the event handlers) are
    sequentialised: a blocking call receives the list of events that the
    controller delivers while the caller is suspended, and the handlers run on
    that list at the point where the caller waits.  Every call that leaves the
    class (controller requests, callbacks, logging, collaborators) is recorded
    in a trace of effects, in program order. *)

From stdpp Require Import gmap strings list fin_maps.
From Stdlib Require Import ZArith Lia.

Local Open Scope Z_scope.

(** ** Machine integers and plain data *)

(** [uint16_t], [uint32_t], [int] and [int8_t] values are integers of [Z]; the
    conversions the source performs are written out. *)
Definition to_uint32 (z : Z) : Z := z mod 2 ^ 32.

Definition to_int32 (z : Z) : Z :=
  let u := z mod 2 ^ 32 in if u <? 2 ^ 31 then u else u - 2 ^ 32.

Definition in_int8 (z : Z) : Prop := -128 <= z <= 127.
Definition in_uint32 (z : Z) : Prop := 0 <= z < 2 ^ 32.

(** ESP-IDF constants. *)
Definition ESP_GATT_IF_NONE : Z := 255.
Definition ESP_OK : Z := 0.
Definition ESP_GATT_OK : Z := 0.

(** An object address; [this] and [void*] values. *)
Definition ptr : Type := Z.

(** [esp_bd_addr_t] is [uint8_t[6]]; an address is the list of its bytes. *)
Definition esp_bd_addr_t : Type := list Z.

(** [memcpy(dst, src, n)] on byte arrays. *)
Definition memcpy (dst src : list Z) (n : nat) : list Z :=
  take n src ++ drop n dst.

(** A [BLEUUID], by its canonical text. *)
Definition BLEUUID : Type := string.

(** [conn_status_t], the value type of the connection table. *)
Record conn_status_t : Type := ConnStatus {
  peer_device : ptr;
  connected : bool;
  mtu : Z
}.

Definition set_mtu (m : Z) (c : conn_status_t) : conn_status_t :=
  {| peer_device := peer_device c; connected := connected c; mtu := m |}.

(** ** The rendezvous ([FreeRTOS::Semaphore]) *)

Inductive slot_state : Type := Idle | Armed | Signalled.

(** Modelled from the spec: the class [FreeRTOS::Semaphore] (FreeRTOS.cpp is
    not part of the sources at hand).  A single-slot, single-waiter object:
    [take] arms an idle slot, [give] stores a value and signals, [wait]
    consumes the value of a signalled slot and resets the slot to empty.
    Arming a slot that is still armed, and waiting on a slot that was never
    armed, are programming errors. *)
Record Semaphore : Type := Sem {
  slot : slot_state;
  m_value : Z
}.

Definition sem_new : Semaphore := {| slot := Idle; m_value := 0 |}.

Definition sem_take (x : Semaphore) : option Semaphore :=
  match slot x with
  | Idle => Some {| slot := Armed; m_value := m_value x |}
  | Armed | Signalled => None
  end.

Definition sem_signal (x : Semaphore) : Semaphore :=
  match slot x with
  | Idle => x
  | Armed | Signalled => {| slot := Signalled; m_value := m_value x |}
  end.

(** [give()] keeps the stored value, [give(value)] replaces it first. *)
Definition sem_give (x : Semaphore) : Semaphore := sem_signal x.

Definition sem_give_value (v : Z) (x : Semaphore) : Semaphore :=
  sem_signal {| slot := slot x; m_value := to_uint32 v |}.

Definition sem_consume (x : Semaphore) : Semaphore :=
  {| slot := Idle; m_value := m_value x |}.

(** ** The service registry ([BLEServiceMap]) *)

(** A service object created by [new BLEService(uuid, numHandles)]. *)
Record BLEService : Type := Service {
  svc_uuid : BLEUUID;
  svc_numHandles : Z;
  m_instId : Z
}.

(** A [BLEService*]: [None] is [nullptr], [Some i] the [i]-th object of the
    free store. *)
Definition BLEService_ptr : Type := option nat.

(** Modelled from the spec: the class [BLEServiceMap] (BLEServiceMap.cpp is
    not part of the sources at hand).  The registry keeps the services under
    their logical identifier, in insertion order, and the services bound to a
    controller handle.  Inserting under a UUID that is already present keeps
    both entries; the lookup by (UUID, instance) resolves to the first entry
    of that UUID, which is the ambiguity the source comment at the
    creation event points at. *)
Record BLEServiceMap : Type := ServiceMap {
  m_uuidMap : list (BLEUUID * nat);
  m_handleMap : gmap Z BLEService_ptr
}.

Definition serviceMap_new : BLEServiceMap :=
  {| m_uuidMap := []; m_handleMap := ∅ |}.

Fixpoint find_uuid (uuid : BLEUUID) (l : list (BLEUUID * nat)) : BLEService_ptr :=
  match l with
  | [] => None
  | (u, p) :: l' => if decide (u = uuid) then Some p else find_uuid uuid l'
  end.

Definition getByUUID (uuid : BLEUUID) (inst_id : Z) (m : BLEServiceMap)
  : BLEService_ptr :=
  find_uuid uuid (m_uuidMap m).

Definition setByUUID (uuid : BLEUUID) (service : BLEService_ptr)
    (m : BLEServiceMap) : BLEServiceMap :=
  match service with
  | Some p => {| m_uuidMap := m_uuidMap m ++ [(uuid, p)];
                 m_handleMap := m_handleMap m |}
  | None => m
  end.

Definition setByHandle (handle : Z) (service : BLEService_ptr)
    (m : BLEServiceMap) : BLEServiceMap :=
  {| m_uuidMap := m_uuidMap m;
     m_handleMap := match m_handleMap m !! handle with
                    | Some _ => m_handleMap m
                    | None => <[handle := service]> (m_handleMap m)
                    end |}.

Definition getByHandle (handle : Z) (m : BLEServiceMap) : BLEService_ptr :=
  match m_handleMap m !! handle with
  | Some p => p
  | None => None
  end.

Definition serviceMap_removeService (service : BLEService_ptr)
    (m : BLEServiceMap) : BLEServiceMap :=
  {| m_uuidMap := filter (fun e => Some (snd e) ≠ service) (m_uuidMap m);
     m_handleMap := filter (fun e => snd e ≠ service) (m_handleMap m) |}.

(** ** Events delivered by the controller *)

(** [esp_gatts_cb_event_t] together with the member of
    [esp_ble_gatts_cb_param_t] that belongs to it.  The kinds that the server
    does not name go through the [default] branch. *)
Inductive gatts_event : Type :=
| ESP_GATTS_REG_EVT (status app_id : Z)
| ESP_GATTS_READ_EVT
| ESP_GATTS_WRITE_EVT
| ESP_GATTS_MTU_EVT (conn_id mtu : Z)
| ESP_GATTS_CREATE_EVT (status service_handle : Z) (uuid : BLEUUID) (inst_id : Z)
| ESP_GATTS_ADD_CHAR_EVT
| ESP_GATTS_CONNECT_EVT (conn_id : Z) (remote_bda : esp_bd_addr_t)
| ESP_GATTS_DISCONNECT_EVT (conn_id : Z) (remote_bda : esp_bd_addr_t) (reason : Z)
| ESP_GATTS_OPEN_EVT (status : Z)
| ESP_GATTS_OTHER_EVT (code : Z).

(** [esp_gap_ble_cb_event_t] with [esp_ble_gap_cb_param_t]. *)
Inductive gap_event : Type :=
| ESP_GAP_BLE_READ_RSSI_COMPLETE_EVT (status rssi : Z) (remote_addr : esp_bd_addr_t)
| ESP_GAP_BLE_OTHER_EVT (code : Z).

(** One call of the Bluetooth task into the server. *)
Inductive delivery : Type :=
| Gatts (event : gatts_event) (gatts_if : Z)
| Gap (event : gap_event).

(** ** Effects *)

Inductive sem_id : Type := RegisterAppEvt | CreateEvt | OpenEvt | RssiCmplEvt.

Inductive log_level : Type := Debug | Warning | Error.

(** Requests to the controller. *)
Inductive request : Type :=
| esp_ble_gatts_app_register (app_id : Z)
| esp_ble_gatts_open (gatts_if : Z) (addr : esp_bd_addr_t) (is_direct : Z)
| esp_ble_gap_read_rssi (addr : esp_bd_addr_t)
| esp_ble_gap_update_conn_params
    (bda : esp_bd_addr_t) (min_int max_int latency timeout : Z).

Inductive effect : Type :=
| ELog (lvl : log_level) (msg : string)
| ETake (i : sem_id)
| EGive (i : sem_id)
| EWait (i : sem_id)
| ERequest (r : request)
| EOnConnect (cb : ptr)
| EOnConnectParam (cb : ptr) (event : gatts_event)
| EOnDisconnect (cb : ptr)
| EStartAdvertising
| EForward (event : gatts_event) (gatts_if : Z)
| EExecuteCreate (service : nat)
| EStop (service : BLEService_ptr)
| EExecuteDelete (service : BLEService_ptr).

(** ** The server object *)

Record BLEServer : Type := Server {
  m_appId : Z;
  m_gatts_if : Z;
  m_connectedCount : Z;
  m_connId : Z;
  m_pServerCallbacks : option ptr;
  m_client_addr : esp_bd_addr_t;
  m_connectedServersMap : gmap Z conn_status_t;
  m_serviceMap : BLEServiceMap;
  m_semaphoreRegisterAppEvt : Semaphore;
  m_semaphoreCreateEvt : Semaphore;
  m_semaphoreOpenEvt : Semaphore;
  m_semaphoreRssiCmplEvt : Semaphore;
  (** the objects that [createService] allocated with [new] *)
  free_store : list BLEService
}.

Definition set_m_appId (v : Z) (s : BLEServer) : BLEServer :=
  Server v (m_gatts_if s) (m_connectedCount s) (m_connId s)
    (m_pServerCallbacks s) (m_client_addr s) (m_connectedServersMap s)
    (m_serviceMap s) (m_semaphoreRegisterAppEvt s) (m_semaphoreCreateEvt s)
    (m_semaphoreOpenEvt s) (m_semaphoreRssiCmplEvt s) (free_store s).

Definition set_m_gatts_if (v : Z) (s : BLEServer) : BLEServer :=
  Server (m_appId s) v (m_connectedCount s) (m_connId s)
    (m_pServerCallbacks s) (m_client_addr s) (m_connectedServersMap s)
    (m_serviceMap s) (m_semaphoreRegisterAppEvt s) (m_semaphoreCreateEvt s)
    (m_semaphoreOpenEvt s) (m_semaphoreRssiCmplEvt s) (free_store s).

Definition set_m_connectedCount (v : Z) (s : BLEServer) : BLEServer :=
  Server (m_appId s) (m_gatts_if s) v (m_connId s)
    (m_pServerCallbacks s) (m_client_addr s) (m_connectedServersMap s)
    (m_serviceMap s) (m_semaphoreRegisterAppEvt s) (m_semaphoreCreateEvt s)
    (m_semaphoreOpenEvt s) (m_semaphoreRssiCmplEvt s) (free_store s).

Definition set_m_connId (v : Z) (s : BLEServer) : BLEServer :=
  Server (m_appId s) (m_gatts_if s) (m_connectedCount s) v
    (m_pServerCallbacks s) (m_client_addr s) (m_connectedServersMap s)
    (m_serviceMap s) (m_semaphoreRegisterAppEvt s) (m_semaphoreCreateEvt s)
    (m_semaphoreOpenEvt s) (m_semaphoreRssiCmplEvt s) (free_store s).

Definition set_m_pServerCallbacks (v : option ptr) (s : BLEServer) : BLEServer :=
  Server (m_appId s) (m_gatts_if s) (m_connectedCount s) (m_connId s)
    v (m_client_addr s) (m_connectedServersMap s)
    (m_serviceMap s) (m_semaphoreRegisterAppEvt s) (m_semaphoreCreateEvt s)
    (m_semaphoreOpenEvt s) (m_semaphoreRssiCmplEvt s) (free_store s).

Definition set_m_client_addr (v : esp_bd_addr_t) (s : BLEServer) : BLEServer :=
  Server (m_appId s) (m_gatts_if s) (m_connectedCount s) (m_connId s)
    (m_pServerCallbacks s) v (m_connectedServersMap s)
    (m_serviceMap s) (m_semaphoreRegisterAppEvt s) (m_semaphoreCreateEvt s)
    (m_semaphoreOpenEvt s) (m_semaphoreRssiCmplEvt s) (free_store s).

Definition set_m_connectedServersMap (v : gmap Z conn_status_t) (s : BLEServer)
  : BLEServer :=
  Server (m_appId s) (m_gatts_if s) (m_connectedCount s) (m_connId s)
    (m_pServerCallbacks s) (m_client_addr s) v
    (m_serviceMap s) (m_semaphoreRegisterAppEvt s) (m_semaphoreCreateEvt s)
    (m_semaphoreOpenEvt s) (m_semaphoreRssiCmplEvt s) (free_store s).

Definition set_m_serviceMap (v : BLEServiceMap) (s : BLEServer) : BLEServer :=
  Server (m_appId s) (m_gatts_if s) (m_connectedCount s) (m_connId s)
    (m_pServerCallbacks s) (m_client_addr s) (m_connectedServersMap s)
    v (m_semaphoreRegisterAppEvt s) (m_semaphoreCreateEvt s)
    (m_semaphoreOpenEvt s) (m_semaphoreRssiCmplEvt s) (free_store s).

Definition set_free_store (v : list BLEService) (s : BLEServer) : BLEServer :=
  Server (m_appId s) (m_gatts_if s) (m_connectedCount s) (m_connId s)
    (m_pServerCallbacks s) (m_client_addr s) (m_connectedServersMap s)
    (m_serviceMap s) (m_semaphoreRegisterAppEvt s) (m_semaphoreCreateEvt s)
    (m_semaphoreOpenEvt s) (m_semaphoreRssiCmplEvt s) v.

Definition sem_of (i : sem_id) (s : BLEServer) : Semaphore :=
  match i with
  | RegisterAppEvt => m_semaphoreRegisterAppEvt s
  | CreateEvt => m_semaphoreCreateEvt s
  | OpenEvt => m_semaphoreOpenEvt s
  | RssiCmplEvt => m_semaphoreRssiCmplEvt s
  end.

Definition set_sem (i : sem_id) (x : Semaphore) (s : BLEServer) : BLEServer :=
  Server (m_appId s) (m_gatts_if s) (m_connectedCount s) (m_connId s)
    (m_pServerCallbacks s) (m_client_addr s) (m_connectedServersMap s)
    (m_serviceMap s)
    (match i with RegisterAppEvt => x | _ => m_semaphoreRegisterAppEvt s end)
    (match i with CreateEvt => x | _ => m_semaphoreCreateEvt s end)
    (match i with OpenEvt => x | _ => m_semaphoreOpenEvt s end)
    (match i with RssiCmplEvt => x | _ => m_semaphoreRssiCmplEvt s end)
    (free_store s).

(** [BLEServer::BLEServer()].  The constructor leaves [m_client_addr]
    uninitialised; it is six zero bytes here. *)
Definition BLEServer_new : BLEServer :=
  {| m_appId := ESP_GATT_IF_NONE;
     m_gatts_if := ESP_GATT_IF_NONE;
     m_connectedCount := 0;
     m_connId := ESP_GATT_IF_NONE;
     m_pServerCallbacks := None;
     m_client_addr := replicate 6 0;
     m_connectedServersMap := ∅;
     m_serviceMap := serviceMap_new;
     m_semaphoreRegisterAppEvt := sem_new;
     m_semaphoreCreateEvt := sem_new;
     m_semaphoreOpenEvt := sem_new;
     m_semaphoreRssiCmplEvt := sem_new;
     free_store := [] |}.

(** ** Accessors and the connection table *)

Definition getServiceByUUID (uuid : BLEUUID) (s : BLEServer) : BLEService_ptr :=
  getByUUID uuid 0 (m_serviceMap s).
Definition getConnId (s : BLEServer) : Z := m_connId s.
Definition getConnectedCount (s : BLEServer) : Z := m_connectedCount s.
Definition getGattsIf (s : BLEServer) : Z := m_gatts_if s.
Definition getPeerAddress (s : BLEServer) : esp_bd_addr_t := m_client_addr s.
Definition getPeerDevices (_client : bool) (s : BLEServer)
  : gmap Z conn_status_t := m_connectedServersMap s.
Definition setCallbacks (pCallbacks : option ptr) (s : BLEServer) : BLEServer :=
  set_m_pServerCallbacks pCallbacks s.

(** [updatePeerMTU]: [find], then the write through the iterator.  The
    [std::swap] that follows exchanges the element with itself. *)
Definition updatePeerMTU (conn_id mtu : Z) (s : BLEServer) : BLEServer :=
  match m_connectedServersMap s !! conn_id with
  | Some it =>
      set_m_connectedServersMap
        (<[conn_id := set_mtu mtu it]> (m_connectedServersMap s)) s
  | None => s
  end.

(** [getPeerMTU] reads through the iterator that [find] returns.  For an
    absent key that iterator is [end()], which must not be dereferenced: the
    result is [None]. *)
Definition getPeerMTU (conn_id : Z) (s : BLEServer) : option Z :=
  match m_connectedServersMap s !! conn_id with
  | Some it => Some (mtu it)
  | None => None
  end.

(** [std::map::insert] keeps the element that is already stored under the
    key. *)
Definition map_insert_new {V : Type} (k : Z) (v : V) (m : gmap Z V) : gmap Z V :=
  match m !! k with
  | Some _ => m
  | None => <[k := v]> m
  end.

Definition addPeerDevice (peer : ptr) (_client : bool) (conn_id : Z)
    (s : BLEServer) : BLEServer :=
  let status := {| peer_device := peer; connected := true; mtu := 23 |} in
  set_m_connectedServersMap
    (map_insert_new conn_id status (m_connectedServersMap s)) s.

Definition removePeerDevice (conn_id : Z) (_client : bool) (s : BLEServer)
  : BLEServer :=
  set_m_connectedServersMap (delete conn_id (m_connectedServersMap s)) s.

(** ** The two execution contexts *)

(** Code of the Bluetooth task: it runs to completion, changes the server and
    leaves effects. *)
Definition Act (A : Type) : Type := BLEServer -> A * BLEServer * list effect.

#[export] Instance act_ret : MRet Act := fun A a s => (a, s, []).
#[export] Instance act_bind : MBind Act := fun A B k m s =>
  let '(a, s1, t1) := m s in
  let '(b, s2, t2) := k a s1 in
  (b, s2, t1 ++ t2).

Definition emit (e : effect) : Act unit := fun s => (tt, s, [e]).
Definition modify (f : BLEServer -> BLEServer) : Act unit := fun s => (tt, f s, []).
Definition get_state : Act BLEServer := fun s => (s, s, []).
Definition log (lvl : log_level) (msg : string) : Act unit := emit (ELog lvl msg).

Definition give (i : sem_id) : Act unit :=
  modify (fun s => set_sem i (sem_give (sem_of i s)) s);; emit (EGive i).

Definition give_value (i : sem_id) (value : Z) : Act unit :=
  modify (fun s => set_sem i (sem_give_value value (sem_of i s)) s);;
  emit (EGive i).

(** Code of the application task: a call returns, or stays suspended because
    the event it waits for is not among the deliveries, or misuses a
    rendezvous. *)
Inductive outcome (A : Type) : Type :=
| Returned (a : A) (s : BLEServer) (tr : list effect)
| Blocked (s : BLEServer) (tr : list effect)
| Misuse (s : BLEServer) (tr : list effect).
Arguments Returned {A} a s tr.
Arguments Blocked {A} s tr.
Arguments Misuse {A} s tr.

Definition Call (A : Type) : Type := BLEServer -> outcome A.

Definition after {A : Type} (t : list effect) (o : outcome A) : outcome A :=
  match o with
  | Returned a s tr => Returned a s (t ++ tr)
  | Blocked s tr => Blocked s (t ++ tr)
  | Misuse s tr => Misuse s (t ++ tr)
  end.

#[export] Instance call_ret : MRet Call := fun A a s => Returned a s [].
#[export] Instance call_bind : MBind Call := fun A B k m s =>
  match m s with
  | Returned a s1 t1 => after t1 (k a s1)
  | Blocked s1 t1 => Blocked s1 t1
  | Misuse s1 t1 => Misuse s1 t1
  end.

Definition act {A : Type} (m : Act A) : Call A := fun s =>
  let '(a, s1, t1) := m s in Returned a s1 t1.

Definition trace_of {A : Type} (o : outcome A) : list effect :=
  match o with
  | Returned _ _ tr | Blocked _ tr | Misuse _ tr => tr
  end.

Definition state_of {A : Type} (o : outcome A) : BLEServer :=
  match o with
  | Returned _ s _ | Blocked s _ | Misuse s _ => s
  end.

Definition result_of {A : Type} (o : outcome A) : option A :=
  match o with
  | Returned a _ _ => Some a
  | Blocked _ _ | Misuse _ _ => None
  end.

Definition take (i : sem_id) : Call unit := fun s =>
  match sem_take (sem_of i s) with
  | Some x => Returned tt (set_sem i x s) [ETake i]
  | None => Misuse s [ETake i]
  end.

(** ** The event handlers *)

Section Methods.

(** The address of the server object. *)
Variable this : ptr.

Definition startAdvertising : Act unit :=
  log Debug ">> startAdvertising";;
  emit EStartAdvertising;;
  log Debug "<< startAdvertising".

Definition handleGATTServerEvent (event : gatts_event) (gatts_if : Z) : Act unit :=
  log Debug ">> handleGATTServerEvent";;
  match event with
  | ESP_GATTS_ADD_CHAR_EVT => mret tt
  | ESP_GATTS_MTU_EVT conn_id mtu => modify (updatePeerMTU conn_id mtu)
  | ESP_GATTS_CONNECT_EVT conn_id remote_bda =>
      modify (set_m_connId conn_id);;
      s ← get_state;
      modify (addPeerDevice this false (m_connId s));;
      modify (fun s => set_m_client_addr (memcpy (m_client_addr s) remote_bda 6) s);;
      match m_pServerCallbacks s with
      | Some cb => emit (EOnConnect cb);; emit (EOnConnectParam cb event)
      | None => mret tt
      end;;
      modify (fun s => set_m_connectedCount (to_uint32 (m_connectedCount s + 1)) s)
  | ESP_GATTS_CREATE_EVT status service_handle uuid inst_id =>
      s ← get_state;
      let pService := getByUUID uuid inst_id (m_serviceMap s) in
      modify (fun s =>
        set_m_serviceMap (setByHandle service_handle pService (m_serviceMap s)) s);;
      give CreateEvt
  | ESP_GATTS_DISCONNECT_EVT conn_id remote_bda reason =>
      modify (fun s => set_m_connectedCount (to_uint32 (m_connectedCount s - 1)) s);;
      s ← get_state;
      match m_pServerCallbacks s with
      | Some cb => emit (EOnDisconnect cb)
      | None => mret tt
      end;;
      startAdvertising;;
      modify (removePeerDevice conn_id false)
  | ESP_GATTS_READ_EVT => mret tt
  | ESP_GATTS_REG_EVT status app_id =>
      modify (set_m_gatts_if gatts_if);;
      give RegisterAppEvt
  | ESP_GATTS_WRITE_EVT => mret tt
  | ESP_GATTS_OPEN_EVT status => give_value OpenEvt status
  | ESP_GATTS_OTHER_EVT code => mret tt
  end;;
  emit (EForward event gatts_if);;
  log Debug "<< handleGATTServerEvent".

Definition handleGAPEvent (event : gap_event) : Act unit :=
  log Debug "handling GAP event!";;
  match event with
  | ESP_GAP_BLE_READ_RSSI_COMPLETE_EVT status rssi remote_addr =>
      give_value RssiCmplEvt (to_uint32 rssi)
  | ESP_GAP_BLE_OTHER_EVT code => mret tt
  end.

Definition dispatch (d : delivery) : Act unit :=
  match d with
  | Gatts event gatts_if => handleGATTServerEvent event gatts_if
  | Gap event => handleGAPEvent event
  end.

(** The Bluetooth task on a list of deliveries. *)
Fixpoint run_events (ds : list delivery) (s : BLEServer) : BLEServer * list effect :=
  match ds with
  | [] => (s, [])
  | d :: ds' =>
      let '(_, s1, t1) := dispatch d s in
      let '(s2, t2) := run_events ds' s1 in
      (s2, t1 ++ t2)
  end.

(** ** The blocking calls *)

(** [wait] on a rendezvous: the handlers run on the deliveries until the slot
    is signalled; the value is consumed and the slot is empty again. *)
Fixpoint await (i : sem_id) (deliveries : list delivery) (s : BLEServer)
  : outcome Z :=
  match slot (sem_of i s) with
  | Signalled =>
      Returned (m_value (sem_of i s)) (set_sem i (sem_consume (sem_of i s)) s) []
  | Idle => Misuse s []
  | Armed =>
      match deliveries with
      | [] => Blocked s []
      | d :: ds =>
          let '(_, s1, t1) := dispatch d s in after t1 (await i ds s1)
      end
  end.

Definition wait (i : sem_id) (deliveries : list delivery) : Call Z :=
  act (emit (EWait i));; await i deliveries.

(** A request to the controller; [rc] is the controller's return code. *)
Definition controller (r : request) (rc : Z) : Call Z :=
  act (emit (ERequest r));; mret rc.

Definition registerApp (m_appId : Z) (deliveries : list delivery) : Call unit :=
  act (log Debug ">> registerApp");;
  take RegisterAppEvt;;
  act (emit (ERequest (esp_ble_gatts_app_register m_appId)));;
  wait RegisterAppEvt deliveries;;
  act (log Debug "<< registerApp").

Definition createApp (appId : Z) (deliveries : list delivery) : Call unit :=
  act (modify (set_m_appId appId));;
  registerApp appId deliveries.

(** [new BLEService(uuid, numHandles)], then [pService->m_instId = inst_id]. *)
Definition new_BLEService (uuid : BLEUUID) (numHandles inst_id : Z) : Act nat :=
  s ← get_state;
  let p := length (free_store s) in
  modify (set_free_store (free_store s ++ [Service uuid numHandles inst_id]));;
  mret p.

Definition createService (uuid : BLEUUID) (numHandles inst_id : Z)
    (deliveries : list delivery) : Call BLEService_ptr :=
  act (log Debug ">> createService");;
  take CreateEvt;;
  s ← act get_state;
  (if decide (getByUUID uuid 0 (m_serviceMap s) ≠ None)
   then act (log Warning "<< Attempt to create a new service with uuid but a service with that UUID already exists.")
   else mret tt);;
  p ← act (new_BLEService uuid numHandles inst_id);
  act (modify (fun s => set_m_serviceMap (setByUUID uuid (Some p) (m_serviceMap s)) s));;
  act (emit (EExecuteCreate p));;
  wait CreateEvt deliveries;;
  act (log Debug "<< createService");;
  mret (Some p).

Definition removeService (service : BLEService_ptr) : Act unit :=
  emit (EStop service);;
  emit (EExecuteDelete service);;
  modify (fun s => set_m_serviceMap (serviceMap_removeService service (m_serviceMap s)) s).

Definition connect (address : esp_bd_addr_t) (errRc : Z)
    (deliveries : list delivery) : Call bool :=
  act (log Debug ">> connect()");;
  let addr := memcpy (replicate 6 0) address 6 in
  take OpenEvt;;
  s ← act get_state;
  errRc ← controller (esp_ble_gatts_open (getGattsIf s) addr 1) errRc;
  if decide (errRc ≠ ESP_OK) then
    act (log Error "esp_ble_gattc_open: rc=");;
    mret false
  else
    rc ← wait OpenEvt deliveries;
    act (log Debug "<< connect(), rc=");;
    mret (bool_decide (rc = ESP_GATT_OK)).

Definition updateConnParams (remote_bda : esp_bd_addr_t)
    (minInterval maxInterval latency timeout : Z) : Act unit :=
  let bda := memcpy (replicate 6 0) remote_bda 6 in
  emit (ERequest (esp_ble_gap_update_conn_params bda minInterval maxInterval
                    latency timeout)).

(** The iterator that [getRssi] takes from [std::begin] of the table is not
    used; the request goes to the address of the last connected peer. *)
Definition getRssi (rc : Z) (deliveries : list delivery) : Call Z :=
  act (log Debug ">> getRssi()");;
  s ← act get_state;
  if decide (m_connectedCount s ≠ 1) then
    act (log Debug "<< getRssi(): error, devices connected");;
    mret 0
  else
    take RssiCmplEvt;;
    s ← act get_state;
    rc ← controller (esp_ble_gap_read_rssi (getPeerAddress s)) rc;
    if decide (rc ≠ ESP_OK) then
      act (log Error "<< getRssi: esp_ble_gap_read_rssi: rc=");;
      mret 0
    else
      v ← wait RssiCmplEvt deliveries;
      let rssiValue := to_int32 v in
      act (log Debug "<< getRssi(): ");;
      mret rssiValue.

End Methods.

(** ** Reading the result of a handler *)

Definition state_after {A : Type} (m : Act A) (s : BLEServer) : BLEServer :=
  (m s).1.2.

Definition effects_of {A : Type} (m : Act A) (s : BLEServer) : list effect :=
  (m s).2.

(** The delivery is the peer-connected event of [conn_id]. *)
Definition connects (conn_id : Z) (d : delivery) : bool :=
  match d with
  | Gatts (ESP_GATTS_CONNECT_EVT c _) _ => bool_decide (c = conn_id)
  | _ => false
  end.

(** The delivery releases the rendezvous [i]. *)
Definition signals (i : sem_id) (d : delivery) : bool :=
  match d, i with
  | Gatts (ESP_GATTS_REG_EVT _ _) _, RegisterAppEvt => true
  | Gatts (ESP_GATTS_CREATE_EVT _ _ _ _) _, CreateEvt => true
  | Gatts (ESP_GATTS_OPEN_EVT _) _, OpenEvt => true
  | Gap (ESP_GAP_BLE_READ_RSSI_COMPLETE_EVT _ _ _), RssiCmplEvt => true
  | _, _ => false
  end.

(** A log entry above the debug level. *)
Definition is_fault_report (e : effect) : bool :=
  match e with
  | ELog Warning _ | ELog Error _ => true
  | _ => false
  end.

Definition reports_fault (tr : list effect) : bool := existsb is_fault_report tr.

Definition is_callback (e : effect) : bool :=
  match e with
  | EOnConnect _ | EOnConnectParam _ _ | EOnDisconnect _ => true
  | _ => false
  end.

Definition is_request (e : effect) : bool :=
  match e with
  | ERequest _ => true
  | _ => false
  end.

(** ** Sample data and the statements that the code does not meet *)

Definition sample_addr : esp_bd_addr_t := [170; 187; 204; 221; 238; 255].

(** A server at address 1000 to which peer 7 is connected with a negotiated
    unit size of 200. *)
Definition server_with_peer : BLEServer :=
  (run_events 1000
     [Gatts (ESP_GATTS_CONNECT_EVT 7 sample_addr) 3;
      Gatts (ESP_GATTS_MTU_EVT 7 200) 3] BLEServer_new).1.

(** A server at address 1000 on which the service 180D was created and
    confirmed under handle 42. *)
Definition server_with_service : BLEServer :=
  state_of
    (createService 1000 "180D" 15 0
       [Gatts (ESP_GATTS_CREATE_EVT 0 42 "180D" 0) 3] BLEServer_new).

(** The connect handler leaves under [conn_id] an entry with the default unit
    size and the connected flag. *)
Definition connect_leaves_default_entry (this : ptr) (conn_id : Z)
    (remote_bda : esp_bd_addr_t) (gatts_if : Z) (s : BLEServer) : Prop :=
  exists e : conn_status_t,
    m_connectedServersMap
      (state_after
         (handleGATTServerEvent this (ESP_GATTS_CONNECT_EVT conn_id remote_bda)
            gatts_if) s) !! conn_id = Some e /\
    mtu e = 23 /\ connected e = true.

(** A call ended without having armed the rendezvous [i], which is empty. *)
Definition rendezvous_untouched {A : Type} (i : sem_id) (o : outcome A) : Prop :=
  ~ In (ETake i) (trace_of o) /\ slot (sem_of i (state_of o)) = Idle.

(** The creation-confirmed handler reports an event that resolves to no
    service. *)
Definition unresolved_creation_reported (this : ptr)
    (status service_handle : Z) (uuid : BLEUUID) (inst_id gatts_if : Z)
    (s : BLEServer) : Prop :=
  getByUUID uuid inst_id (m_serviceMap s) = None ->
  reports_fault
    (effects_of
       (handleGATTServerEvent this
          (ESP_GATTS_CREATE_EVT status service_handle uuid inst_id) gatts_if) s)
  = true.

(** The take of [i] comes before the request [r], and nothing waits on [i]. *)
Definition armed_then_requested (i : sem_id) (r : request) (tr : list effect)
  : Prop :=
  (exists t1 t2 t3 : list effect,
     tr = t1 ++ ETake i :: t2 ++ ERequest r :: t3) /\
  ~ In (EWait i) tr.

(** ** Classes of deliveries and of effects *)

Definition is_connect (d : delivery) : bool :=
  match d with
  | Gatts (ESP_GATTS_CONNECT_EVT _ _) _ => true
  | _ => false
  end.

Definition is_disconnect (d : delivery) : bool :=
  match d with
  | Gatts (ESP_GATTS_DISCONNECT_EVT _ _ _) _ => true
  | _ => false
  end.

(** The effects of the application task: arming, waiting, requests to the
    controller. *)
Definition is_rendezvous_use (e : effect) : bool :=
  match e with
  | ETake _ | EWait _ | ERequest _ => true
  | _ => false
  end.

Definition is_advertising (e : effect) : bool :=
  match e with
  | EStartAdvertising => true
  | _ => false
  end.

Definition is_forward (e : effect) : bool :=
  match e with
  | EForward _ _ => true
  | _ => false
  end.

(** The identifier of the last connect event among the deliveries, and
    [dflt] when there is none. *)
Definition last_connId (ds : list delivery) (dflt : Z) : Z :=
  fold_left
    (fun acc d =>
       match d with
       | Gatts (ESP_GATTS_CONNECT_EVT c _) _ => c
       | _ => acc
       end) ds dflt.

(** A controller that keeps its identifiers apart connects only identifiers
    that are not open and disconnects only identifiers that are. *)
Definition expected (d : delivery) (s : BLEServer) : bool :=
  match d with
  | Gatts (ESP_GATTS_CONNECT_EVT c _) _ =>
      match m_connectedServersMap s !! c with None => true | Some _ => false end
  | Gatts (ESP_GATTS_DISCONNECT_EVT c _ _) _ =>
      match m_connectedServersMap s !! c with None => false | Some _ => true end
  | _ => true
  end.

Fixpoint disciplined (this : ptr) (ds : list delivery) (s : BLEServer) : bool :=
  match ds with
  | [] => true
  | d :: ds' =>
      expected d s && disciplined this ds' (state_after (dispatch this d) s)
  end.

(** Every entry of the table points to the server at [this] and is flagged
    connected. *)
Definition entries_of_server (this : ptr) (s : BLEServer) : Prop :=
  forall (k : Z) (e : conn_status_t),
    m_connectedServersMap s !! k = Some e ->
    peer_device e = this /\ connected e = true.

(** The calls that a delivery makes on the callback object [cbo]. *)
Definition callbacks_for (cbo : option ptr) (d : delivery) : list effect :=
  match cbo, d with
  | Some cb, Gatts (ESP_GATTS_CONNECT_EVT c bda) _ =>
      [EOnConnect cb; EOnConnectParam cb (ESP_GATTS_CONNECT_EVT c bda)]
  | Some cb, Gatts (ESP_GATTS_DISCONNECT_EVT _ _ _) _ => [EOnDisconnect cb]
  | _, _ => []
  end.

(** ** Basic facts *)

Ltac run_act :=
  cbv [state_after effects_of dispatch handleGATTServerEvent handleGAPEvent
       startAdvertising give give_value log emit modify get_state
       mbind mret act_bind act_ret];
  cbn.

Ltac run_call :=
  cbv [mbind mret call_bind call_ret act controller wait
       log emit modify get_state act_bind act_ret];
  cbn [after app].

Lemma to_uint32_idem (z : Z) : to_uint32 (to_uint32 z) = to_uint32 z.
Proof. unfold to_uint32. apply Z.mod_mod. lia. Qed.

Lemma to_uint32_small (z : Z) : in_uint32 z -> to_uint32 z = z.
Proof. unfold to_uint32, in_uint32. intros H. apply Z.mod_small. exact H. Qed.

Lemma to_int32_of_int8 (v : Z) : in_int8 v -> to_int32 (to_uint32 v) = v.
Proof.
  unfold in_int8, to_int32, to_uint32. intros Hv.
  rewrite Z.mod_mod by lia.
  destruct (Z_lt_le_dec v 0) as [Hneg | Hpos].
  - replace (v mod 2 ^ 32) with (v + 2 ^ 32).
    + destruct (Z.ltb_spec (v + 2 ^ 32) (2 ^ 31)); lia.
    + apply Z.mod_unique with (q := -1); lia.
  - rewrite Z.mod_small by lia.
    destruct (Z.ltb_spec v (2 ^ 31)); lia.
Qed.

Lemma memcpy_prefix (dst src : list Z) (n : nat) :
  length src = n -> firstn n (memcpy dst src n) = src.
Proof.
  intros <-. unfold memcpy.
  rewrite (firstn_all src), firstn_app, firstn_all, Nat.sub_diag.
  cbn. apply app_nil_r.
Qed.

Lemma set_table_same (s : BLEServer) :
  set_m_connectedServersMap (m_connectedServersMap s) s = s.
Proof. destruct s; reflexivity. Qed.

Lemma map_insert_new_absent {V : Type} (k : Z) (v : V) (m : gmap Z V) :
  m !! k = None -> map_insert_new k v m = <[k := v]> m.
Proof. intros H. unfold map_insert_new. rewrite H. reflexivity. Qed.

Lemma map_insert_new_present {V : Type} (k : Z) (v : V) (m : gmap Z V) :
  is_Some (m !! k) -> map_insert_new k v m = m.
Proof. intros [w H]. unfold map_insert_new. rewrite H. reflexivity. Qed.

Lemma map_insert_new_other {V : Type} (k j : Z) (v : V) (m : gmap Z V) :
  k ≠ j -> map_insert_new k v m !! j = m !! j.
Proof.
  intros H. unfold map_insert_new.
  destruct (m !! k); [reflexivity | apply lookup_insert_ne; exact H].
Qed.

(** What each handler does to the connection table. *)
Lemma table_after_connect this conn_id remote_bda gatts_if s :
  m_connectedServersMap
    (state_after (handleGATTServerEvent this (ESP_GATTS_CONNECT_EVT conn_id remote_bda) gatts_if) s)
  = map_insert_new conn_id (ConnStatus this true 23) (m_connectedServersMap s).
Proof. run_act. destruct (m_pServerCallbacks s); reflexivity. Qed.

Lemma table_after_disconnect this conn_id remote_bda reason gatts_if s :
  m_connectedServersMap
    (state_after (handleGATTServerEvent this (ESP_GATTS_DISCONNECT_EVT conn_id remote_bda reason) gatts_if) s)
  = delete conn_id (m_connectedServersMap s).
Proof. run_act. destruct (m_pServerCallbacks s); reflexivity. Qed.

Lemma state_after_mtu this conn_id mtu gatts_if s :
  state_after (handleGATTServerEvent this (ESP_GATTS_MTU_EVT conn_id mtu) gatts_if) s
  = updatePeerMTU conn_id mtu s.
Proof. reflexivity. Qed.

Lemma updatePeerMTU_absent_other (conn_id mtu k : Z) (s : BLEServer) :
  m_connectedServersMap s !! k = None ->
  m_connectedServersMap (updatePeerMTU conn_id mtu s) !! k = None.
Proof.
  intros Hk. unfold updatePeerMTU.
  destruct (m_connectedServersMap s !! conn_id) as [it |] eqn:Hc; [| exact Hk].
  cbn. destruct (decide (conn_id = k)) as [-> | Hne].
  - congruence.
  - rewrite lookup_insert_ne by exact Hne. exact Hk.
Qed.

(** An identifier without an entry gets one only from its own connect
    event. *)
Lemma dispatch_keeps_absent this (k : Z) (d : delivery) (s : BLEServer) :
  connects k d = false ->
  m_connectedServersMap s !! k = None ->
  m_connectedServersMap (state_after (dispatch this d) s) !! k = None.
Proof.
  intros Hd Hk. destruct d as [event gatts_if | event].
  - destruct event.
    all: try (run_act; exact Hk).
    + change (m_connectedServersMap (updatePeerMTU conn_id mtu0 s) !! k = None).
      apply updatePeerMTU_absent_other. exact Hk.
    + cbn [dispatch]. rewrite table_after_connect.
      cbn in Hd. apply bool_decide_eq_false in Hd.
      rewrite map_insert_new_other by exact Hd. exact Hk.
    + cbn [dispatch]. rewrite table_after_disconnect.
      destruct (decide (conn_id = k)) as [-> | Hne].
      * apply lookup_delete_eq.
      * rewrite lookup_delete_ne by exact Hne. exact Hk.
  - destruct event; run_act; exact Hk.
Qed.

Lemma run_events_cons this d ds s :
  (run_events this (d :: ds) s).1
  = (run_events this ds (state_after (dispatch this d) s)).1.
Proof.
  cbn [run_events]. unfold state_after.
  destruct (dispatch this d s) as [[u s1] t1]. cbn.
  destruct (run_events this ds s1) as [s2 t2]. reflexivity.
Qed.

Lemma run_events_keeps_absent this (k : Z) (ds : list delivery) :
  forall s : BLEServer,
  forallb (fun d => negb (connects k d)) ds = true ->
  m_connectedServersMap s !! k = None ->
  m_connectedServersMap (run_events this ds s).1 !! k = None.
Proof.
  induction ds as [| d ds IH]; intros s Hds Hk.
  - exact Hk.
  - cbn in Hds. apply andb_prop in Hds as [Hd Hrest].
    rewrite run_events_cons. apply IH; [exact Hrest |].
    apply dispatch_keeps_absent; [| exact Hk].
    apply negb_true_iff. exact Hd.
Qed.

(** ** The connection table *)

(** C6: [updatePeerMTU] changes nothing but the table; in the table it changes
    nothing but the entry of [conn_id]; of that entry it changes the [mtu]
    field only; and without such an entry the server is left as it was. *)
Theorem updatePeerMTU_frame (conn_id mtu : Z) (s : BLEServer) :
  let s' := updatePeerMTU conn_id mtu s in
  set_m_connectedServersMap (m_connectedServersMap s) s' = s /\
  (forall k : Z, k ≠ conn_id ->
     m_connectedServersMap s' !! k = m_connectedServersMap s !! k) /\
  (forall it : conn_status_t,
     m_connectedServersMap s !! conn_id = Some it ->
     m_connectedServersMap s' !! conn_id
     = Some (ConnStatus (peer_device it) (connected it) mtu)) /\
  (m_connectedServersMap s !! conn_id = None -> s' = s).
Proof.
  cbv zeta. unfold updatePeerMTU.
  destruct (m_connectedServersMap s !! conn_id) as [it |] eqn:Hc.
  - repeat split.
    + destruct s; reflexivity.
    + intros k Hk. cbn. apply lookup_insert_ne. congruence.
    + intros it' Hit. injection Hit as <-. cbn. apply lookup_insert_eq.
    + discriminate.
  - repeat split.
    + apply set_table_same.
    + intros it Hit. discriminate.
Qed.

Lemma updatePeerMTU_frame_witness :
  updatePeerMTU 7 200 BLEServer_new = BLEServer_new /\
  m_connectedServersMap
    (updatePeerMTU 7 200 (addPeerDevice 1000 false 7 BLEServer_new)) !! 7
  = Some (ConnStatus 1000 true 200).
Proof.
  split.
  - apply (updatePeerMTU_frame 7 200 BLEServer_new). reflexivity.
  - apply (updatePeerMTU_frame 7 200 (addPeerDevice 1000 false 7 BLEServer_new)
             ) with (it := ConnStatus 1000 true 23).
    reflexivity.
Defined.

(** C10: [getPeerMTU] is defined exactly on the identifiers that have an
    entry, and there it is the [mtu] field of the entry; for any other
    identifier the iterator it reads through is [end()]. *)
Theorem getPeerMTU_defined (conn_id : Z) (s : BLEServer) :
  (forall it : conn_status_t,
     m_connectedServersMap s !! conn_id = Some it ->
     getPeerMTU conn_id s = Some (mtu it)) /\
  (is_Some (getPeerMTU conn_id s) <-> is_Some (m_connectedServersMap s !! conn_id)) /\
  (getPeerMTU conn_id s = None <-> m_connectedServersMap s !! conn_id = None).
Proof.
  unfold getPeerMTU.
  destruct (m_connectedServersMap s !! conn_id) as [it |] eqn:Hc.
  - split; [| split].
    + intros it' Hit. congruence.
    + split; intros _; eauto.
    + split; discriminate.
  - split; [| split].
    + intros it Hit. discriminate.
    + split; intros [x Hx]; discriminate.
    + split; reflexivity.
Qed.

Lemma getPeerMTU_defined_witness :
  getPeerMTU 7 (addPeerDevice 1000 false 7 BLEServer_new) = Some 23 /\
  getPeerMTU 7 BLEServer_new = None.
Proof.
  split.
  - apply (getPeerMTU_defined 7 (addPeerDevice 1000 false 7 BLEServer_new)
             ) with (it := ConnStatus 1000 true 23).
    reflexivity.
  - apply (getPeerMTU_defined 7 BLEServer_new). reflexivity.
Defined.

(** C9: the disconnect handler subtracts one from the 32-bit counter whatever
    the connection table holds; at zero the counter wraps to 4294967295, and
    that is what [getConnectedCount] returns. *)
Theorem disconnect_decrements_counter this (conn_id : Z)
    (remote_bda : esp_bd_addr_t) (reason gatts_if : Z) (s : BLEServer) :
  let handler :=
    handleGATTServerEvent this (ESP_GATTS_DISCONNECT_EVT conn_id remote_bda reason)
      gatts_if in
  getConnectedCount (state_after handler s) = (m_connectedCount s - 1) mod 2 ^ 32 /\
  (forall table : gmap Z conn_status_t,
     getConnectedCount (state_after handler (set_m_connectedServersMap table s))
     = getConnectedCount (state_after handler s)) /\
  getConnectedCount (state_after handler (set_m_connectedCount 0 s)) = 4294967295.
Proof.
  cbv zeta. repeat split.
  - run_act. destruct (m_pServerCallbacks s); reflexivity.
  - intros table. run_act. destruct (m_pServerCallbacks s); reflexivity.
  - run_act. destruct (m_pServerCallbacks s); reflexivity.
Qed.

(** C4: the disconnect handler erases the entry of the event's identifier
    and no other; without such an entry the table is as before; and the
    identifier stays without an entry through all later deliveries that are
    not its own connect event, which then inserts a fresh entry. *)
Theorem disconnect_removes_entry this (conn_id : Z)
    (remote_bda : esp_bd_addr_t) (reason gatts_if : Z) (s : BLEServer) :
  let s' :=
    state_after
      (handleGATTServerEvent this
         (ESP_GATTS_DISCONNECT_EVT conn_id remote_bda reason) gatts_if) s in
  m_connectedServersMap s' !! conn_id = None /\
  (forall k : Z, k ≠ conn_id ->
     m_connectedServersMap s' !! k = m_connectedServersMap s !! k) /\
  (m_connectedServersMap s !! conn_id = None ->
     m_connectedServersMap s' = m_connectedServersMap s) /\
  (forall ds : list delivery,
     forallb (fun d => negb (connects conn_id d)) ds = true ->
     let s'' := (run_events this ds s').1 in
     m_connectedServersMap s'' !! conn_id = None /\
     forall (bda : esp_bd_addr_t) (g : Z),
       m_connectedServersMap
         (state_after
            (handleGATTServerEvent this (ESP_GATTS_CONNECT_EVT conn_id bda) g)
            s'') !! conn_id
       = Some (ConnStatus this true 23)).
Proof.
  cbv zeta. rewrite table_after_disconnect.
  split; [apply lookup_delete_eq |].
  split; [intros k Hk; apply lookup_delete_ne; congruence |].
  split; [intros Hnone; apply delete_id; exact Hnone |].
  intros ds Hds.
  assert (Hgone :
    m_connectedServersMap
      (run_events this ds
         (state_after
            (handleGATTServerEvent this
               (ESP_GATTS_DISCONNECT_EVT conn_id remote_bda reason) gatts_if) s)).1
      !! conn_id = None).
  { apply run_events_keeps_absent; [exact Hds |].
    rewrite table_after_disconnect. apply lookup_delete_eq. }
  split; [exact Hgone |].
  intros bda g. rewrite table_after_connect.
  rewrite map_insert_new_absent by exact Hgone.
  apply lookup_insert_eq.
Qed.

Lemma disconnect_removes_entry_witness :
  let s' :=
    state_after
      (handleGATTServerEvent 1000 (ESP_GATTS_DISCONNECT_EVT 7 sample_addr 19) 3)
      server_with_peer in
  let s'' :=
    (run_events 1000
       [Gatts (ESP_GATTS_MTU_EVT 7 185) 3;
        Gatts (ESP_GATTS_CONNECT_EVT 8 sample_addr) 3] s').1 in
  m_connectedServersMap s'' !! 7 = None /\
  m_connectedServersMap
    (state_after
       (handleGATTServerEvent 1000 (ESP_GATTS_CONNECT_EVT 7 sample_addr) 3) s'')
    !! 7 = Some (ConnStatus 1000 true 23) /\
  m_connectedServersMap
    (state_after
       (handleGATTServerEvent 1000 (ESP_GATTS_DISCONNECT_EVT 7 sample_addr 19) 3)
       BLEServer_new)
  = m_connectedServersMap BLEServer_new.
Proof.
  cbv zeta.
  destruct (disconnect_removes_entry 1000 7 sample_addr 19 3 server_with_peer)
    as (_ & _ & _ & Hlater).
  destruct (Hlater [Gatts (ESP_GATTS_MTU_EVT 7 185) 3;
                    Gatts (ESP_GATTS_CONNECT_EVT 8 sample_addr) 3])
    as [Hgone Hfresh]; [reflexivity |].
  split; [exact Hgone |].
  split; [apply Hfresh |].
  apply (disconnect_removes_entry 1000 7 sample_addr 19 3 BLEServer_new).
  reflexivity.
Defined.

(** C5, as the specification has it, fails on an identifier that still has an
    entry: the entry stays, with the unit size it had. *)
Lemma connect_keeps_existing_entry :
  m_connectedServersMap
    (state_after
       (handleGATTServerEvent 1000 (ESP_GATTS_CONNECT_EVT 7 sample_addr) 3)
       server_with_peer) !! 7 = Some (ConnStatus 1000 true 200) /\
  ~ connect_leaves_default_entry 1000 7 sample_addr 3 server_with_peer.
Proof.
  assert (H :
    m_connectedServersMap
      (state_after
         (handleGATTServerEvent 1000 (ESP_GATTS_CONNECT_EVT 7 sample_addr) 3)
         server_with_peer) !! 7 = Some (ConnStatus 1000 true 200))
    by (vm_compute; reflexivity).
  split; [exact H |].
  intros (e & He & Hmtu & _). rewrite H in He. injection He as <-.
  cbn in Hmtu. discriminate.
Qed.

(** C5, amended: the connect handler inserts the entry (this server,
    connected, unit size 23) when the identifier has none and keeps the table
    as it is when it has one; it copies the six address bytes, calls both
    [onConnect] callbacks of a registered callback object and none otherwise,
    and adds one to the 32-bit counter. *)
Theorem connect_event_effect this (conn_id : Z) (remote_bda : esp_bd_addr_t)
    (gatts_if : Z) (s : BLEServer) :
  let event := ESP_GATTS_CONNECT_EVT conn_id remote_bda in
  let s' := state_after (handleGATTServerEvent this event gatts_if) s in
  let tr := effects_of (handleGATTServerEvent this event gatts_if) s in
  (m_connectedServersMap s !! conn_id = None ->
     m_connectedServersMap s'
     = <[conn_id := ConnStatus this true 23]> (m_connectedServersMap s)) /\
  (is_Some (m_connectedServersMap s !! conn_id) ->
     m_connectedServersMap s' = m_connectedServersMap s) /\
  (length remote_bda = 6%nat -> firstn 6 (m_client_addr s') = remote_bda) /\
  List.filter is_callback tr
  = match m_pServerCallbacks s with
    | Some cb => [EOnConnect cb; EOnConnectParam cb event]
    | None => []
    end /\
  m_connectedCount s' = (m_connectedCount s + 1) mod 2 ^ 32 /\
  (0 <= m_connectedCount s < 2 ^ 32 - 1 ->
     m_connectedCount s' = m_connectedCount s + 1).
Proof.
  cbv zeta. rewrite table_after_connect.
  split; [apply map_insert_new_absent |].
  split; [apply map_insert_new_present |].
  assert (Hcount :
    m_connectedCount
      (state_after
         (handleGATTServerEvent this (ESP_GATTS_CONNECT_EVT conn_id remote_bda)
            gatts_if) s)
    = (m_connectedCount s + 1) mod 2 ^ 32).
  { run_act. destruct (m_pServerCallbacks s); reflexivity. }
  split; [| split; [| split]].
  - intros Hlen. run_act.
    destruct (m_pServerCallbacks s); cbn; apply memcpy_prefix; exact Hlen.
  - run_act. destruct (m_pServerCallbacks s); reflexivity.
  - exact Hcount.
  - intros Hrange. rewrite Hcount. apply Z.mod_small. lia.
Qed.

Lemma connect_event_effect_witness :
  m_connectedServersMap
    (state_after
       (handleGATTServerEvent 1000 (ESP_GATTS_CONNECT_EVT 7 sample_addr) 3)
       BLEServer_new)
  = <[7 := ConnStatus 1000 true 23]> (m_connectedServersMap BLEServer_new) /\
  m_connectedServersMap
    (state_after
       (handleGATTServerEvent 1000 (ESP_GATTS_CONNECT_EVT 7 sample_addr) 3)
       server_with_peer)
  = m_connectedServersMap server_with_peer /\
  firstn 6
    (m_client_addr
       (state_after
          (handleGATTServerEvent 1000 (ESP_GATTS_CONNECT_EVT 7 sample_addr) 3)
          BLEServer_new)) = sample_addr /\
  m_connectedCount
    (state_after
       (handleGATTServerEvent 1000 (ESP_GATTS_CONNECT_EVT 7 sample_addr) 3)
       server_with_peer) = m_connectedCount server_with_peer + 1.
Proof.
  destruct (connect_event_effect 1000 7 sample_addr 3 BLEServer_new)
    as (Hnew & _ & Haddr & _ & _ & _).
  destruct (connect_event_effect 1000 7 sample_addr 3 server_with_peer)
    as (_ & Hold & _ & _ & _ & Hcount).
  split; [apply Hnew; reflexivity |].
  split; [apply Hold; exists (ConnStatus 1000 true 200); reflexivity |].
  split; [apply Haddr; reflexivity |].
  apply Hcount. vm_compute. split; [discriminate | reflexivity].
Defined.

(** ** The rendezvous under the handlers *)

Lemma sem_of_set_sem (i : sem_id) (x : Semaphore) (s : BLEServer) :
  sem_of i (set_sem i x s) = x.
Proof. destruct i; reflexivity. Qed.

Lemma take_idle (i : sem_id) (s : BLEServer) :
  slot (sem_of i s) = Idle ->
  take i s = Returned tt (set_sem i (Sem Armed (m_value (sem_of i s))) s) [ETake i].
Proof. intros H. unfold take, sem_take. rewrite H. reflexivity. Qed.


(** A delivery that does not release [i] leaves [i] as it is. *)
Lemma dispatch_sem_other this (i : sem_id) (d : delivery) (s : BLEServer) :
  signals i d = false ->
  sem_of i (state_after (dispatch this d) s) = sem_of i s.
Proof.
  intros Hd. destruct d as [event gatts_if | event]; destruct event.
  all: try (destruct i; try discriminate Hd; run_act;
            try destruct (m_pServerCallbacks s); reflexivity).
  change (sem_of i (updatePeerMTU conn_id mtu0 s) = sem_of i s).
  unfold updatePeerMTU.
  destruct (m_connectedServersMap s !! conn_id); destruct i; reflexivity.
Qed.

(** A delivery that releases an armed [i] leaves it signalled. *)
Lemma dispatch_sem_signalled this (i : sem_id) (d : delivery) (s : BLEServer) :
  signals i d = true ->
  slot (sem_of i s) = Armed ->
  slot (sem_of i (state_after (dispatch this d) s)) = Signalled.
Proof.
  intros Hd Harmed. destruct d as [event gatts_if | event]; destruct event.
  all: destruct i; try discriminate Hd.
  all: run_act; cbn in Harmed; unfold sem_give, sem_give_value, sem_signal; cbn;
       rewrite Harmed; reflexivity.
Qed.

Lemma open_event_value this (status gatts_if : Z) (s : BLEServer) :
  m_value
    (sem_of OpenEvt
       (state_after (dispatch this (Gatts (ESP_GATTS_OPEN_EVT status) gatts_if)) s))
  = to_uint32 status.
Proof.
  run_act. unfold sem_give_value, sem_signal. cbn.
  destruct (slot (m_semaphoreOpenEvt s)); reflexivity.
Qed.

Lemma rssi_event_value this (status rssi : Z) (remote_addr : esp_bd_addr_t)
    (s : BLEServer) :
  m_value
    (sem_of RssiCmplEvt
       (state_after
          (dispatch this (Gap (ESP_GAP_BLE_READ_RSSI_COMPLETE_EVT status rssi remote_addr)))
          s))
  = to_uint32 rssi.
Proof.
  run_act. unfold sem_give_value, sem_signal. cbn.
  destruct (slot (m_semaphoreRssiCmplEvt s)); cbn; apply to_uint32_idem.
Qed.

Lemma result_of_after {A : Type} (t : list effect) (o : outcome A) :
  result_of (after t o) = result_of o.
Proof. destruct o; reflexivity. Qed.

Lemma state_of_after {A : Type} (t : list effect) (o : outcome A) :
  state_of (after t o) = state_of o.
Proof. destruct o; reflexivity. Qed.

Lemma trace_of_after {A : Type} (t : list effect) (o : outcome A) :
  trace_of (after t o) = t ++ trace_of o.
Proof. destruct o; reflexivity. Qed.

Lemma await_signalled this (i : sem_id) (ds : list delivery) (s : BLEServer) :
  slot (sem_of i s) = Signalled ->
  await this i ds s
  = Returned (m_value (sem_of i s)) (set_sem i (sem_consume (sem_of i s)) s) [].
Proof. intros H. destruct ds; cbn; rewrite H; reflexivity. Qed.

Lemma await_armed_cons this (i : sem_id) (d : delivery) (ds : list delivery)
    (s : BLEServer) :
  slot (sem_of i s) = Armed ->
  await this i (d :: ds) s
  = after (effects_of (dispatch this d) s)
      (await this i ds (state_after (dispatch this d) s)).
Proof.
  intros H. cbn [await]. rewrite H. unfold effects_of, state_after.
  destruct (dispatch this d s) as [[u s1] t1]. reflexivity.
Qed.

(** The waiter sleeps through the deliveries that do not release its
    rendezvous, and wakes up at the first one that does, with the value that
    the handler of that delivery stored. *)
Lemma await_first_signal this (i : sem_id) (pre : list delivery) :
  forall (s : BLEServer) (d : delivery) (post : list delivery),
  slot (sem_of i s) = Armed ->
  forallb (fun d => negb (signals i d)) pre = true ->
  signals i d = true ->
  exists (s1 : BLEServer) (tr : list effect),
    slot (sem_of i s1) = Armed /\
    s1 = (run_events this pre s).1 /\
    await this i (pre ++ d :: post) s
    = Returned
        (m_value (sem_of i (state_after (dispatch this d) s1)))
        (set_sem i (sem_consume (sem_of i (state_after (dispatch this d) s1)))
           (state_after (dispatch this d) s1))
        tr.
Proof.
  induction pre as [| e pre IH]; intros s d post Harmed Hpre Hd.
  - exists s. eexists. split; [exact Harmed |]. split; [reflexivity |].
    cbn [app]. rewrite await_armed_cons by exact Harmed.
    rewrite await_signalled
      by (apply dispatch_sem_signalled; [exact Hd | exact Harmed]).
    cbn [after]. reflexivity.
  - cbn in Hpre. apply andb_prop in Hpre as [He Hpre].
    apply negb_true_iff in He.
    assert (Harmed' : slot (sem_of i (state_after (dispatch this e) s)) = Armed).
    { rewrite dispatch_sem_other by exact He. exact Harmed. }
    destruct (IH (state_after (dispatch this e) s) d post Harmed' Hpre Hd)
      as (s1 & tr & Hs1 & Heq & Hrun).
    exists s1. eexists. split; [exact Hs1 |].
    split; [rewrite run_events_cons; exact Heq |].
    cbn [app]. rewrite await_armed_cons by exact Harmed.
    rewrite Hrun. cbn [after]. reflexivity.
Qed.

(** ** The blocking calls *)

(** C3: once the open request is accepted, [connect] returns at the first
    open-complete event, and it returns [true] exactly when the status of
    that event is [ESP_GATT_OK]. *)
Theorem connect_reports_open_status this (address : esp_bd_addr_t) (errRc : Z)
    (pre : list delivery) (status gatts_if : Z) (post : list delivery)
    (s : BLEServer) :
  slot (m_semaphoreOpenEvt s) = Idle ->
  errRc = ESP_OK ->
  forallb (fun d => negb (signals OpenEvt d)) pre = true ->
  in_uint32 status ->
  exists b : bool,
    result_of
      (connect this address errRc
         (pre ++ Gatts (ESP_GATTS_OPEN_EVT status) gatts_if :: post) s)
    = Some b /\
    (b = true <-> status = ESP_GATT_OK).
Proof.
  intros Hidle -> Hpre Hst.
  exists (bool_decide (status = ESP_GATT_OK)).
  split; [| apply bool_decide_eq_true].
  unfold connect. run_call.
  rewrite (take_idle OpenEvt) by exact Hidle. cbn [after app].
  destruct (decide (ESP_OK ≠ ESP_OK)) as [Hne | _]; [contradiction |].
  set (s0 := set_sem OpenEvt _ s).
  assert (Harmed : slot (sem_of OpenEvt s0) = Armed)
    by (unfold s0; rewrite sem_of_set_sem; reflexivity).
  destruct (await_first_signal this OpenEvt pre s0
              (Gatts (ESP_GATTS_OPEN_EVT status) gatts_if) post
              Harmed Hpre eq_refl)
    as (s1 & tr & _ & _ & Hrun).
  rewrite Hrun, open_event_value, to_uint32_small by exact Hst.
  reflexivity.
Qed.

Lemma connect_reports_open_status_witness :
  exists b : bool,
    result_of
      (connect 1000 sample_addr 0
         ([Gatts (ESP_GATTS_CONNECT_EVT 7 sample_addr) 3]
          ++ Gatts (ESP_GATTS_OPEN_EVT 133) 3 :: []) BLEServer_new)
    = Some b /\
    (b = true <-> 133 = ESP_GATT_OK).
Proof.
  apply (connect_reports_open_status 1000 sample_addr 0
           [Gatts (ESP_GATTS_CONNECT_EVT 7 sample_addr) 3] 133 3 []
           BLEServer_new).
  - reflexivity.
  - reflexivity.
  - reflexivity.
  - unfold in_uint32. lia.
Defined.

(** C1: with a connection count other than one, [getRssi] returns 0, leaves
    the server as it is and sends no request; with a count of one and the
    read request accepted, it returns the value that the first
    read-RSSI-complete event carries. *)
Theorem getRssi_result this (rc : Z) (ds : list delivery) (s : BLEServer) :
  (m_connectedCount s ≠ 1 ->
     result_of (getRssi this rc ds s) = Some 0 /\
     state_of (getRssi this rc ds s) = s /\
     forall r : request, ~ In (ERequest r) (trace_of (getRssi this rc ds s))) /\
  (forall (pre : list delivery) (status v : Z) (remote_addr : esp_bd_addr_t)
          (post : list delivery),
     m_connectedCount s = 1 ->
     slot (m_semaphoreRssiCmplEvt s) = Idle ->
     rc = ESP_OK ->
     forallb (fun d => negb (signals RssiCmplEvt d)) pre = true ->
     in_int8 v ->
     ds = pre ++ Gap (ESP_GAP_BLE_READ_RSSI_COMPLETE_EVT status v remote_addr) :: post ->
     result_of (getRssi this rc ds s) = Some v).
Proof.
  split.
  - intros Hcount. unfold getRssi. run_call.
    destruct (decide (m_connectedCount s ≠ 1)) as [_ | Hone]; [| contradiction].
    cbn. split; [reflexivity |]. split; [reflexivity |].
    intros r [H | [H | []]]; discriminate H.
  - intros pre status v remote_addr post Hcount Hidle -> Hpre Hv ->.
    unfold getRssi. run_call.
    destruct (decide (m_connectedCount s ≠ 1)) as [Hne | _]; [contradiction |].
    rewrite (take_idle RssiCmplEvt) by exact Hidle. cbn [after app].
    destruct (decide (ESP_OK ≠ ESP_OK)) as [Hne | _]; [contradiction |].
    set (s0 := set_sem RssiCmplEvt _ s).
    assert (Harmed : slot (sem_of RssiCmplEvt s0) = Armed)
      by (unfold s0; rewrite sem_of_set_sem; reflexivity).
    destruct (await_first_signal this RssiCmplEvt pre s0
                (Gap (ESP_GAP_BLE_READ_RSSI_COMPLETE_EVT status v remote_addr))
                post Harmed Hpre eq_refl)
      as (s1 & tr & _ & _ & Hrun).
    rewrite Hrun, rssi_event_value. cbn.
    rewrite to_int32_of_int8 by exact Hv. reflexivity.
Qed.

Lemma getRssi_result_witness :
  result_of
    (getRssi 1000 0
       [Gap (ESP_GAP_BLE_READ_RSSI_COMPLETE_EVT 0 (-60) sample_addr)]
       BLEServer_new) = Some 0 /\
  result_of
    (getRssi 1000 0
       ([Gatts (ESP_GATTS_MTU_EVT 7 185) 3]
        ++ Gap (ESP_GAP_BLE_READ_RSSI_COMPLETE_EVT 0 (-60) sample_addr) :: [])
       server_with_peer) = Some (-60).
Proof.
  split.
  - apply (getRssi_result 1000 0
             [Gap (ESP_GAP_BLE_READ_RSSI_COMPLETE_EVT 0 (-60) sample_addr)]
             BLEServer_new).
    discriminate.
  - apply (getRssi_result 1000 0
             ([Gatts (ESP_GATTS_MTU_EVT 7 185) 3]
              ++ Gap (ESP_GAP_BLE_READ_RSSI_COMPLETE_EVT 0 (-60) sample_addr) :: [])
             server_with_peer)
      with (pre := [Gatts (ESP_GATTS_MTU_EVT 7 185) 3]) (status := 0)
           (remote_addr := sample_addr) (post := []).
    + reflexivity.
    + reflexivity.
    + reflexivity.
    + reflexivity.
    + unfold in_int8. lia.
    + reflexivity.
Defined.

(** C2, as the specification has it, fails: [connect] arms the rendezvous
    before it sends the request, and after a rejected request the rendezvous
    is not empty. *)
Lemma rejected_connect_has_armed :
  result_of (connect 1000 sample_addr (-1) [] BLEServer_new) = Some false /\
  slot (m_semaphoreOpenEvt
          (state_of (connect 1000 sample_addr (-1) [] BLEServer_new))) = Armed /\
  ~ rendezvous_untouched OpenEvt (connect 1000 sample_addr (-1) [] BLEServer_new).
Proof.
  split; [reflexivity |]. split; [reflexivity |].
  intros [_ Hslot]. vm_compute in Hslot. discriminate Hslot.
Qed.

(** C2, amended: when the controller rejects the request, [connect] returns
    [false] and [getRssi] (with one connection counted) returns 0, whatever is
    delivered afterwards and without waiting on the rendezvous; the
    rendezvous was armed before the request was sent, and nothing of the
    server but that rendezvous is touched. *)
Theorem rejected_request_returns_at_once this (address : esp_bd_addr_t)
    (rc : Z) (ds : list delivery) (s : BLEServer) :
  rc ≠ ESP_OK ->
  (slot (m_semaphoreOpenEvt s) = Idle ->
   exists (s' : BLEServer) (tr : list effect),
     connect this address rc ds s = Returned false s' tr /\
     armed_then_requested OpenEvt
       (esp_ble_gatts_open (m_gatts_if s) (memcpy (replicate 6 0) address 6) 1) tr /\
     set_sem OpenEvt (sem_of OpenEvt s) s' = s) /\
  (m_connectedCount s = 1 ->
   slot (m_semaphoreRssiCmplEvt s) = Idle ->
   exists (s' : BLEServer) (tr : list effect),
     getRssi this rc ds s = Returned 0 s' tr /\
     armed_then_requested RssiCmplEvt (esp_ble_gap_read_rssi (m_client_addr s)) tr /\
     set_sem RssiCmplEvt (sem_of RssiCmplEvt s) s' = s).
Proof.
  intros Hrc. split.
  - intros Hidle. unfold connect. run_call.
    rewrite (take_idle OpenEvt) by exact Hidle. cbn [after app].
    destruct (decide (rc ≠ ESP_OK)) as [_ | Hok]; [| contradiction].
    cbn [after app]. do 2 eexists. split; [reflexivity |]. split.
    + split.
      * exists [ELog Debug ">> connect()"], [],
          [ELog Error "esp_ble_gattc_open: rc="].
        destruct s; reflexivity.
      * cbn. intros [H | [H | [H | [H | []]]]]; discriminate H.
    + destruct s; reflexivity.
  - intros Hcount Hidle. unfold getRssi. run_call.
    destruct (decide (m_connectedCount s ≠ 1)) as [Hne | _]; [contradiction |].
    rewrite (take_idle RssiCmplEvt) by exact Hidle. cbn [after app].
    destruct (decide (rc ≠ ESP_OK)) as [_ | Hok]; [| contradiction].
    cbn [after app]. do 2 eexists. split; [reflexivity |]. split.
    + split.
      * exists [ELog Debug ">> getRssi()"], [],
          [ELog Error "<< getRssi: esp_ble_gap_read_rssi: rc="].
        destruct s; reflexivity.
      * cbn. intros [H | [H | [H | [H | []]]]]; discriminate H.
    + destruct s; reflexivity.
Qed.

Lemma rejected_request_returns_at_once_witness :
  (exists (s' : BLEServer) (tr : list effect),
     connect 1000 sample_addr (-1) [] BLEServer_new = Returned false s' tr /\
     armed_then_requested OpenEvt
       (esp_ble_gatts_open (m_gatts_if BLEServer_new)
          (memcpy (replicate 6 0) sample_addr 6) 1) tr /\
     set_sem OpenEvt (sem_of OpenEvt BLEServer_new) s' = BLEServer_new) /\
  (exists (s' : BLEServer) (tr : list effect),
     getRssi 1000 (-1) [] server_with_peer = Returned 0 s' tr /\
     armed_then_requested RssiCmplEvt
       (esp_ble_gap_read_rssi (m_client_addr server_with_peer)) tr /\
     set_sem RssiCmplEvt (sem_of RssiCmplEvt server_with_peer) s'
     = server_with_peer).
Proof.
  assert (Hrc : -1 ≠ ESP_OK) by discriminate.
  split.
  - apply (rejected_request_returns_at_once 1000 sample_addr (-1) []
             BLEServer_new Hrc).
    reflexivity.
  - apply (rejected_request_returns_at_once 1000 sample_addr (-1) []
             server_with_peer Hrc).
    + reflexivity.
    + reflexivity.
Defined.

(** ** Service creation *)

Lemma dispatch_keeps_services this (d : delivery) (s : BLEServer) :
  free_store (state_after (dispatch this d) s) = free_store s /\
  m_uuidMap (m_serviceMap (state_after (dispatch this d) s))
  = m_uuidMap (m_serviceMap s).
Proof.
  destruct d as [event gatts_if | event]; destruct event.
  all: try (run_act; try destruct (m_pServerCallbacks s); split; reflexivity).
  change (free_store (updatePeerMTU conn_id mtu0 s) = free_store s /\
          m_uuidMap (m_serviceMap (updatePeerMTU conn_id mtu0 s))
          = m_uuidMap (m_serviceMap s)).
  unfold updatePeerMTU.
  destruct (m_connectedServersMap s !! conn_id); split; reflexivity.
Qed.

Lemma run_events_keeps_services this (ds : list delivery) :
  forall s : BLEServer,
  free_store (run_events this ds s).1 = free_store s /\
  m_uuidMap (m_serviceMap (run_events this ds s).1) = m_uuidMap (m_serviceMap s).
Proof.
  induction ds as [| d ds IH]; intros s.
  - split; reflexivity.
  - rewrite run_events_cons.
    destruct (IH (state_after (dispatch this d) s)) as [Hfs Hum].
    destruct (dispatch_keeps_services this d s) as [Hfs' Hum'].
    split; congruence.
Qed.

Lemma set_sem_keeps_services (i : sem_id) (x : Semaphore) (s : BLEServer) :
  free_store (set_sem i x s) = free_store s /\
  m_serviceMap (set_sem i x s) = m_serviceMap s.
Proof. split; reflexivity. Qed.

(** C7: [createService] under a UUID that the registry already resolves logs
    the warning and goes on: it returns, at the first creation-confirmed
    event, a service object that did not exist before, and that object is in
    the registry under the UUID, after the entries that were there. *)
Theorem createService_duplicate_uuid this (uuid : BLEUUID)
    (numHandles inst_id : Z) (pre : list delivery)
    (status service_handle : Z) (uuid' : BLEUUID) (inst_id' gatts_if : Z)
    (post : list delivery) (s : BLEServer) :
  getByUUID uuid 0 (m_serviceMap s) ≠ None ->
  slot (m_semaphoreCreateEvt s) = Idle ->
  forallb (fun d => negb (signals CreateEvt d)) pre = true ->
  exists (p : nat) (s' : BLEServer) (tr : list effect),
    createService this uuid numHandles inst_id
      (pre ++ Gatts (ESP_GATTS_CREATE_EVT status service_handle uuid' inst_id')
                gatts_if :: post) s
    = Returned (Some p) s' tr /\
    reports_fault tr = true /\
    In (ELog Warning "<< Attempt to create a new service with uuid but a service with that UUID already exists.") tr /\
    free_store s !! p = None /\
    free_store s' !! p = Some (Service uuid numHandles inst_id) /\
    m_uuidMap (m_serviceMap s') = m_uuidMap (m_serviceMap s) ++ [(uuid, p)].
Proof.
  intros Hdup Hidle Hpre.
  unfold createService, new_BLEService. run_call.
  rewrite (take_idle CreateEvt) by exact Hidle. cbn [after app].
  change (m_serviceMap (set_sem CreateEvt _ s)) with (m_serviceMap s).
  destruct (decide (getByUUID uuid 0 (m_serviceMap s) ≠ None)) as [_ | Hno];
    [| contradiction].
  cbn [after app].
  match goal with
  | |- context [await this CreateEvt _ ?x] => set (s0 := x)
  end.
  assert (Harmed : slot (sem_of CreateEvt s0) = Armed) by reflexivity.
  destruct (await_first_signal this CreateEvt pre s0
              (Gatts (ESP_GATTS_CREATE_EVT status service_handle uuid' inst_id')
                 gatts_if) post Harmed Hpre eq_refl)
    as (s1 & tr & _ & Hs1 & Hrun).
  rewrite Hrun. cbn [after app].
  do 3 eexists. split; [reflexivity |].
  destruct (run_events_keeps_services this pre s0) as [Hfs Hum].
  rewrite <- Hs1 in Hfs, Hum.
  destruct (dispatch_keeps_services this
              (Gatts (ESP_GATTS_CREATE_EVT status service_handle uuid' inst_id')
                 gatts_if) s1) as [Hfs' Hum'].
  split; [reflexivity |].
  split; [right; right; left; reflexivity |].
  split; [apply lookup_ge_None; cbn; lia |].
  split.
  - change (free_store (set_sem CreateEvt ?x ?y)) with (free_store y).
    rewrite Hfs', Hfs. unfold s0. cbn.
    rewrite lookup_app_r by lia. rewrite Nat.sub_diag. reflexivity.
  - change (m_serviceMap (set_sem CreateEvt ?x ?y)) with (m_serviceMap y).
    rewrite Hum', Hum. reflexivity.
Qed.

Lemma createService_duplicate_uuid_witness :
  exists (p : nat) (s' : BLEServer) (tr : list effect),
    createService 1000 "180D" 15 1
      ([Gatts (ESP_GATTS_CONNECT_EVT 7 sample_addr) 3]
       ++ Gatts (ESP_GATTS_CREATE_EVT 0 43 "180D" 1) 3 :: [])
      server_with_service
    = Returned (Some p) s' tr /\
    reports_fault tr = true /\
    In (ELog Warning "<< Attempt to create a new service with uuid but a service with that UUID already exists.") tr /\
    free_store server_with_service !! p = None /\
    free_store s' !! p = Some (Service "180D" 15 1) /\
    m_uuidMap (m_serviceMap s')
    = m_uuidMap (m_serviceMap server_with_service) ++ [("180D", p)].
Proof.
  apply (createService_duplicate_uuid 1000 "180D" 15 1
           [Gatts (ESP_GATTS_CONNECT_EVT 7 sample_addr) 3] 0 43 "180D" 1 3 []
           server_with_service).
  - discriminate.
  - reflexivity.
  - reflexivity.
Defined.

(** C8, as the specification has it, fails: a creation-confirmed event that
    resolves to no service is handled without any report. *)
Lemma unresolved_creation_not_reported :
  getByUUID "180D" 0 (m_serviceMap BLEServer_new) = None /\
  reports_fault
    (effects_of
       (handleGATTServerEvent 1000 (ESP_GATTS_CREATE_EVT 0 42 "180D" 0) 3)
       BLEServer_new) = false /\
  ~ unresolved_creation_reported 1000 0 42 "180D" 0 3 BLEServer_new.
Proof.
  split; [reflexivity |]. split; [reflexivity |].
  intros H. specialize (H eq_refl). vm_compute in H. discriminate H.
Qed.

(** C8, amended: the creation-confirmed handler takes the same steps whether
    or not the event resolves to a service: it hands the result of the lookup,
    [nullptr] included, to [setByHandle], releases the creation rendezvous and
    forwards the event; it logs its two debug lines and nothing else. *)
Theorem creation_event_unchecked this (status service_handle : Z)
    (uuid : BLEUUID) (inst_id gatts_if : Z) (s : BLEServer) :
  let event := ESP_GATTS_CREATE_EVT status service_handle uuid inst_id in
  let handler := handleGATTServerEvent this event gatts_if in
  effects_of handler s
  = [ELog Debug ">> handleGATTServerEvent"; EGive CreateEvt;
     EForward event gatts_if; ELog Debug "<< handleGATTServerEvent"] /\
  reports_fault (effects_of handler s) = false /\
  m_serviceMap (state_after handler s)
  = setByHandle service_handle (getByUUID uuid inst_id (m_serviceMap s))
      (m_serviceMap s) /\
  sem_of CreateEvt (state_after handler s) = sem_give (sem_of CreateEvt s).
Proof.
  cbv zeta. repeat split.
Qed.

(** ** More on the connection table *)

Lemma count_after_connect this conn_id remote_bda gatts_if s :
  m_connectedCount
    (state_after
       (handleGATTServerEvent this (ESP_GATTS_CONNECT_EVT conn_id remote_bda) gatts_if) s)
  = (m_connectedCount s + 1) mod 2 ^ 32.
Proof. run_act. destruct (m_pServerCallbacks s); reflexivity. Qed.

Lemma count_after_disconnect this conn_id remote_bda reason gatts_if s :
  m_connectedCount
    (state_after
       (handleGATTServerEvent this
          (ESP_GATTS_DISCONNECT_EVT conn_id remote_bda reason) gatts_if) s)
  = (m_connectedCount s - 1) mod 2 ^ 32.
Proof. run_act. destruct (m_pServerCallbacks s); reflexivity. Qed.

(** A delivery other than a connect or a disconnect event keeps the counter,
    and the table up to the unit size of the entries. *)
Lemma dispatch_other this (d : delivery) (s : BLEServer) :
  is_connect d = false ->
  is_disconnect d = false ->
  m_connectedCount (state_after (dispatch this d) s) = m_connectedCount s /\
  (m_connectedServersMap (state_after (dispatch this d) s) = m_connectedServersMap s \/
   exists (c m : Z) (it : conn_status_t),
     m_connectedServersMap s !! c = Some it /\
     m_connectedServersMap (state_after (dispatch this d) s)
     = <[c := set_mtu m it]> (m_connectedServersMap s)).
Proof.
  intros Hc Hd. destruct d as [event gatts_if | event]; destruct event.
  all: try discriminate Hc; try discriminate Hd.
  all: try (run_act; split; [reflexivity | left; reflexivity]).
  change (state_after (dispatch this (Gatts (ESP_GATTS_MTU_EVT conn_id mtu0) gatts_if)) s)
    with (updatePeerMTU conn_id mtu0 s).
  unfold updatePeerMTU.
  destruct (m_connectedServersMap s !! conn_id) as [it |] eqn:Hit.
  - split; [reflexivity |]. right. exists conn_id, mtu0, it.
    split; [exact Hit | reflexivity].
  - split; [reflexivity | left; reflexivity].
Qed.

(** X1: after a unit-size event, [getPeerMTU] is defined on the same
    identifiers as before; it returns the new size for the identifier of the
    event and the old size for every other one. *)
Theorem mtu_event_then_getPeerMTU this (conn_id mtu gatts_if k : Z)
    (s : BLEServer) :
  getPeerMTU k
    (state_after
       (handleGATTServerEvent this (ESP_GATTS_MTU_EVT conn_id mtu) gatts_if) s)
  = match getPeerMTU k s with
    | Some old => Some (if decide (k = conn_id) then mtu else old)
    | None => None
    end.
Proof.
  rewrite state_after_mtu. unfold getPeerMTU, updatePeerMTU.
  destruct (m_connectedServersMap s !! conn_id) as [it |] eqn:Hc.
  - cbn. destruct (decide (k = conn_id)) as [-> | Hne].
    + rewrite lookup_insert_eq, Hc. reflexivity.
    + rewrite lookup_insert_ne by congruence.
      destruct (m_connectedServersMap s !! k); reflexivity.
  - destruct (m_connectedServersMap s !! k) as [e |] eqn:Hk; [| reflexivity].
    destruct (decide (k = conn_id)) as [-> | Hne]; [congruence | reflexivity].
Qed.



Lemma wrap_up_down (c : Z) : in_uint32 c -> ((c + 1) mod 2 ^ 32 - 1) mod 2 ^ 32 = c.
Proof.
  unfold in_uint32. intros H.
  rewrite Zminus_mod_idemp_l. replace (c + 1 - 1) with c by lia.
  apply Z.mod_small. exact H.
Qed.

Lemma wrap_down_up (c : Z) : in_uint32 c -> ((c - 1) mod 2 ^ 32 + 1) mod 2 ^ 32 = c.
Proof.
  unfold in_uint32. intros H.
  rewrite Zplus_mod_idemp_l. replace (c - 1 + 1) with c by lia.
  apply Z.mod_small. exact H.
Qed.

(** X3: a connect event of an identifier without an entry, followed by the
    disconnect event of that identifier, leaves the table and the counter as
    they were; a disconnect event followed by a connect event leaves the
    counter as it was, whatever the identifiers. *)
Theorem connect_disconnect_cancel this (conn_id c1 c2 : Z)
    (bda bda' : esp_bd_addr_t) (reason g g' : Z) (s : BLEServer) :
  in_uint32 (m_connectedCount s) ->
  m_connectedServersMap s !! conn_id = None ->
  let connect_then_disconnect :=
    state_after
      (handleGATTServerEvent this (ESP_GATTS_DISCONNECT_EVT conn_id bda' reason) g')
      (state_after
         (handleGATTServerEvent this (ESP_GATTS_CONNECT_EVT conn_id bda) g) s) in
  let disconnect_then_connect :=
    state_after
      (handleGATTServerEvent this (ESP_GATTS_CONNECT_EVT c2 bda) g)
      (state_after
         (handleGATTServerEvent this (ESP_GATTS_DISCONNECT_EVT c1 bda' reason) g') s) in
  m_connectedServersMap connect_then_disconnect = m_connectedServersMap s /\
  getConnectedCount connect_then_disconnect = getConnectedCount s /\
  getConnectedCount disconnect_then_connect = getConnectedCount s.
Proof.
  intros Hrange Hnone. cbv zeta. unfold getConnectedCount.
  rewrite table_after_disconnect, table_after_connect.
  rewrite count_after_disconnect, !count_after_connect, count_after_disconnect.
  split; [| split].
  - rewrite map_insert_new_absent by exact Hnone.
    apply delete_insert_id. exact Hnone.
  - apply wrap_up_down. exact Hrange.
  - apply wrap_down_up. exact Hrange.
Qed.

Lemma connect_disconnect_cancel_witness :
  m_connectedServersMap
    (state_after
       (handleGATTServerEvent 1000 (ESP_GATTS_DISCONNECT_EVT 8 sample_addr 19) 3)
       (state_after
          (handleGATTServerEvent 1000 (ESP_GATTS_CONNECT_EVT 8 sample_addr) 3)
          server_with_peer))
  = m_connectedServersMap server_with_peer.
Proof.
  apply (connect_disconnect_cancel 1000 8 8 8 sample_addr sample_addr 19 3 3
           server_with_peer).
  - vm_compute. split; [discriminate | reflexivity].
  - reflexivity.
Defined.

Lemma run_events_nil this s : (run_events this [] s).1 = s.
Proof. reflexivity. Qed.

(** X4: deliveries other than connect and disconnect events change neither
    the counter nor the set of identifiers that have an entry. *)
Theorem other_deliveries_keep_connections this (ds : list delivery) :
  forall s : BLEServer,
  forallb (fun d => negb (is_connect d) && negb (is_disconnect d)) ds = true ->
  getConnectedCount (run_events this ds s).1 = getConnectedCount s /\
  dom (getPeerDevices false (run_events this ds s).1) = dom (getPeerDevices false s).
Proof.
  unfold getConnectedCount, getPeerDevices.
  induction ds as [| d ds IH]; intros s Hds.
  - split; reflexivity.
  - cbn in Hds. apply andb_prop in Hds as [Hd Hrest].
    apply andb_prop in Hd as [Hc Hdis].
    apply negb_true_iff in Hc. apply negb_true_iff in Hdis.
    rewrite run_events_cons.
    destruct (IH (state_after (dispatch this d) s) Hrest) as [Hcount Hdom].
    destruct (dispatch_other this d s Hc Hdis) as [Hcount' Htable].
    split; [congruence |].
    rewrite Hdom. destruct Htable as [-> | (c & m & it & Hit & ->)].
    + reflexivity.
    + apply dom_insert_lookup_L. eauto.
Qed.

Lemma other_deliveries_keep_connections_witness :
  getConnectedCount
    (run_events 1000
       [Gatts (ESP_GATTS_MTU_EVT 7 185) 3; Gatts (ESP_GATTS_OPEN_EVT 0) 3;
        Gap (ESP_GAP_BLE_READ_RSSI_COMPLETE_EVT 0 (-60) sample_addr)]
       server_with_peer).1
  = getConnectedCount server_with_peer.
Proof.
  apply (other_deliveries_keep_connections 1000
           [Gatts (ESP_GATTS_MTU_EVT 7 185) 3; Gatts (ESP_GATTS_OPEN_EVT 0) 3;
            Gap (ESP_GAP_BLE_READ_RSSI_COMPLETE_EVT 0 (-60) sample_addr)]
           server_with_peer).
  reflexivity.
Defined.

Lemma present_size_pos {V : Type} (m : gmap Z V) (k : Z) :
  is_Some (m !! k) -> (0 < size m)%nat.
Proof.
  intros [v Hv]. destruct (size m) eqn:Hsize; [| lia].
  apply map_size_empty_inv in Hsize. subst m.
  rewrite lookup_empty in Hv. discriminate.
Qed.

(** X5: under a controller that connects only identifiers without an entry
    and disconnects only identifiers with one, the counter stays equal to the
    number of entries of the table, as long as the 32-bit counter cannot
    overflow. *)
Theorem counter_is_table_size this (ds : list delivery) :
  forall s : BLEServer,
  disciplined this ds s = true ->
  m_connectedCount s = Z.of_nat (size (m_connectedServersMap s)) ->
  Z.of_nat (size (m_connectedServersMap s)) + Z.of_nat (length ds) < 2 ^ 32 ->
  getConnectedCount (run_events this ds s).1
  = Z.of_nat (size (getPeerDevices false (run_events this ds s).1)).
Proof.
  unfold getConnectedCount, getPeerDevices.
  induction ds as [| d ds IH]; intros s Hds Heq Hbound.
  - exact Heq.
  - cbn [disciplined] in Hds. apply andb_prop in Hds as [Hd Hrest].
    rewrite run_events_cons. cbn [length] in Hbound.
    apply IH; [exact Hrest | |].
    + destruct (is_connect d) eqn:Hc; [| destruct (is_disconnect d) eqn:Hdis].
      * destruct d as [[] g |]; try discriminate Hc. cbn [dispatch].
        cbn in Hd.
        destruct (m_connectedServersMap s !! conn_id) eqn:Hk; [discriminate |].
        rewrite count_after_connect, table_after_connect.
        rewrite map_insert_new_absent by exact Hk.
        rewrite map_size_insert_None by exact Hk.
        rewrite Heq. rewrite Z.mod_small; lia.
      * destruct d as [[] g |]; try discriminate Hdis. cbn [dispatch].
        cbn in Hd.
        destruct (m_connectedServersMap s !! conn_id) eqn:Hk; [| discriminate].
        rewrite count_after_disconnect, table_after_disconnect.
        assert (Hpos : (0 < size (m_connectedServersMap s))%nat)
          by (apply (present_size_pos _ conn_id); rewrite Hk; eauto).
        rewrite map_size_delete_Some by (rewrite Hk; eauto).
        rewrite Heq. rewrite Z.mod_small; lia.
      * destruct (dispatch_other this d s Hc Hdis)
          as [-> [-> | (c & m & it & Hit & ->)]]; [exact Heq |].
        rewrite map_size_insert_Some by eauto. exact Heq.
    + destruct (is_connect d) eqn:Hc; [| destruct (is_disconnect d) eqn:Hdis].
      * destruct d as [[] g |]; try discriminate Hc. cbn [dispatch].
        cbn in Hd.
        destruct (m_connectedServersMap s !! conn_id) eqn:Hk; [discriminate |].
        rewrite table_after_connect, map_insert_new_absent by exact Hk.
        rewrite map_size_insert_None by exact Hk. lia.
      * destruct d as [[] g |]; try discriminate Hdis. cbn [dispatch].
        rewrite table_after_disconnect.
        pose proof (map_size_delete conn_id (m_connectedServersMap s)) as Hsz.
        destruct (m_connectedServersMap s !! conn_id); cbn in Hsz; lia.
      * destruct (dispatch_other this d s Hc Hdis)
          as [_ [-> | (c & m & it & Hit & ->)]]; [lia |].
        rewrite map_size_insert_Some by eauto. lia.
Qed.

Lemma counter_is_table_size_witness :
  getConnectedCount
    (run_events 1000
       [Gatts (ESP_GATTS_CONNECT_EVT 7 sample_addr) 3;
        Gatts (ESP_GATTS_CONNECT_EVT 8 sample_addr) 3;
        Gatts (ESP_GATTS_MTU_EVT 8 185) 3;
        Gatts (ESP_GATTS_DISCONNECT_EVT 7 sample_addr 19) 3] BLEServer_new).1
  = Z.of_nat
      (size
         (getPeerDevices false
            (run_events 1000
               [Gatts (ESP_GATTS_CONNECT_EVT 7 sample_addr) 3;
                Gatts (ESP_GATTS_CONNECT_EVT 8 sample_addr) 3;
                Gatts (ESP_GATTS_MTU_EVT 8 185) 3;
                Gatts (ESP_GATTS_DISCONNECT_EVT 7 sample_addr 19) 3]
               BLEServer_new).1)).
Proof.
  apply (counter_is_table_size 1000
           [Gatts (ESP_GATTS_CONNECT_EVT 7 sample_addr) 3;
            Gatts (ESP_GATTS_CONNECT_EVT 8 sample_addr) 3;
            Gatts (ESP_GATTS_MTU_EVT 8 185) 3;
            Gatts (ESP_GATTS_DISCONNECT_EVT 7 sample_addr 19) 3] BLEServer_new).
  - reflexivity.
  - reflexivity.
  - reflexivity.
Defined.

(** X6: the handlers keep every entry of the table pointing to the server
    and flagged connected: an entry is never marked disconnected, it is
    erased. *)
Theorem entries_stay_connected this (ds : list delivery) :
  forall s : BLEServer,
  entries_of_server this s ->
  entries_of_server this (run_events this ds s).1.
Proof.
  induction ds as [| d ds IH]; intros s Hinv; [exact Hinv |].
  rewrite run_events_cons. apply IH. clear IH.
  intros k e Hk.
  destruct (is_connect d) eqn:Hc; [| destruct (is_disconnect d) eqn:Hdis].
  - destruct d as [[] g |]; try discriminate Hc. cbn [dispatch] in Hk.
    rewrite table_after_connect in Hk. unfold map_insert_new in Hk.
    destruct (m_connectedServersMap s !! conn_id) eqn:Hold.
    + exact (Hinv k e Hk).
    + destruct (decide (conn_id = k)) as [-> | Hne].
      * rewrite lookup_insert_eq in Hk. injection Hk as <-. split; reflexivity.
      * rewrite lookup_insert_ne in Hk by exact Hne. exact (Hinv k e Hk).
  - destruct d as [[] g |]; try discriminate Hdis. cbn [dispatch] in Hk.
    rewrite table_after_disconnect in Hk.
    apply lookup_delete_Some in Hk as [_ Hk]. exact (Hinv k e Hk).
  - destruct (dispatch_other this d s Hc Hdis)
      as [_ [Heq | (c & m & it & Hit & Heq)]]; rewrite Heq in Hk.
    + exact (Hinv k e Hk).
    + destruct (decide (c = k)) as [-> | Hne].
      * rewrite lookup_insert_eq in Hk. injection Hk as <-.
        exact (Hinv k it Hit).
      * rewrite lookup_insert_ne in Hk by exact Hne. exact (Hinv k e Hk).
Qed.

Lemma entries_stay_connected_witness : entries_of_server 1000 server_with_peer.
Proof.
  apply (entries_stay_connected 1000
           [Gatts (ESP_GATTS_CONNECT_EVT 7 sample_addr) 3;
            Gatts (ESP_GATTS_MTU_EVT 7 200) 3] BLEServer_new).
  intros k e Hk. vm_compute in Hk. discriminate Hk.
Defined.

Lemma connId_after_dispatch this (d : delivery) (s : BLEServer) :
  m_connId (state_after (dispatch this d) s) = last_connId [d] (m_connId s).
Proof.
  destruct d as [event gatts_if | event]; destruct event.
  all: try (run_act; try destruct (m_pServerCallbacks s); reflexivity).
  change (m_connId (updatePeerMTU conn_id mtu0 s) = m_connId s).
  unfold updatePeerMTU. destruct (m_connectedServersMap s !! conn_id); reflexivity.
Qed.

Lemma client_addr_after_dispatch this (d : delivery) (s : BLEServer) :
  is_connect d = false ->
  m_client_addr (state_after (dispatch this d) s) = m_client_addr s.
Proof.
  intros Hd. destruct d as [event gatts_if | event]; destruct event.
  all: try discriminate Hd.
  all: try (run_act; try destruct (m_pServerCallbacks s); reflexivity).
  change (m_client_addr (updatePeerMTU conn_id mtu0 s) = m_client_addr s).
  unfold updatePeerMTU. destruct (m_connectedServersMap s !! conn_id); reflexivity.
Qed.

(** X7: [getConnId] is the identifier of the last connect event delivered,
    also after that peer has disconnected; and [getPeerAddress] changes at
    connect events only. *)
Theorem last_connect_wins this (ds : list delivery) :
  forall s : BLEServer,
  getConnId (run_events this ds s).1 = last_connId ds (getConnId s) /\
  (forallb (fun d => negb (is_connect d)) ds = true ->
   getPeerAddress (run_events this ds s).1 = getPeerAddress s).
Proof.
  unfold getConnId, getPeerAddress.
  induction ds as [| d ds IH]; intros s.
  - split; reflexivity.
  - rewrite run_events_cons.
    destruct (IH (state_after (dispatch this d) s)) as [Hid Haddr].
    split.
    + rewrite Hid, connId_after_dispatch. reflexivity.
    + intros Hds. cbn in Hds. apply andb_prop in Hds as [Hd Hrest].
      apply negb_true_iff in Hd.
      rewrite (Haddr Hrest). apply client_addr_after_dispatch. exact Hd.
Qed.

Lemma last_connect_wins_witness :
  getPeerAddress
    (run_events 1000
       [Gatts (ESP_GATTS_MTU_EVT 7 185) 3;
        Gatts (ESP_GATTS_DISCONNECT_EVT 7 sample_addr 19) 3] server_with_peer).1
  = getPeerAddress server_with_peer.
Proof.
  apply (last_connect_wins 1000
           [Gatts (ESP_GATTS_MTU_EVT 7 185) 3;
            Gatts (ESP_GATTS_DISCONNECT_EVT 7 sample_addr 19) 3]
           server_with_peer).
  reflexivity.
Defined.

(** ** What the handlers call *)

Lemma run_events_trace_cons this d ds s :
  (run_events this (d :: ds) s).2
  = effects_of (dispatch this d) s
    ++ (run_events this ds (state_after (dispatch this d) s)).2.
Proof.
  cbn [run_events]. unfold state_after, effects_of.
  destruct (dispatch this d s) as [[u s1] t1]. cbn.
  destruct (run_events this ds s1) as [s2 t2]. reflexivity.
Qed.

(** X8: every GATT server event is handed on to the services exactly once,
    after the server's own handling of it and before the closing log line. *)
Theorem every_event_forwarded this (event : gatts_event) (gatts_if : Z)
    (s : BLEServer) :
  exists tr : list effect,
    effects_of (handleGATTServerEvent this event gatts_if) s
    = ELog Debug ">> handleGATTServerEvent"
        :: tr ++ [EForward event gatts_if; ELog Debug "<< handleGATTServerEvent"] /\
    List.filter is_forward tr = [].
Proof.
  destruct event.
  all: run_act; try destruct (m_pServerCallbacks s).
  all: try (exists []; split; reflexivity).
  all: try (exists [EGive RegisterAppEvt]; split; reflexivity).
  all: try (exists [EGive CreateEvt]; split; reflexivity).
  all: try (exists [EGive OpenEvt]; split; reflexivity).
  all: try (eexists [_; _]; split; reflexivity).
  all: try (eexists [_; _; _]; split; reflexivity).
  all: try (eexists [_; _; _; _]; split; reflexivity).
Qed.

Lemma dispatch_effect_classes this (d : delivery) (s : BLEServer) :
  List.filter is_rendezvous_use (effects_of (dispatch this d) s) = [] /\
  List.filter is_advertising (effects_of (dispatch this d) s)
  = (if is_disconnect d then [EStartAdvertising] else []) /\
  List.filter is_callback (effects_of (dispatch this d) s)
  = callbacks_for (m_pServerCallbacks s) d /\
  m_pServerCallbacks (state_after (dispatch this d) s) = m_pServerCallbacks s.
Proof.
  destruct d as [event gatts_if | event]; destruct event.
  all: try (run_act; destruct (m_pServerCallbacks s) eqn:Hcb; cbn; rewrite ?Hcb;
            repeat split; reflexivity).
  change (state_after (dispatch this (Gatts (ESP_GATTS_MTU_EVT conn_id mtu0) gatts_if)) s)
    with (updatePeerMTU conn_id mtu0 s).
  unfold updatePeerMTU.
  destruct (m_connectedServersMap s !! conn_id);
    run_act; destruct (m_pServerCallbacks s); repeat split; reflexivity.
Qed.

(** X9: the handlers never arm a rendezvous, never wait on one and never
    send a request to the controller; and they restart advertising once for
    every disconnect event and for no other delivery. *)
Theorem handlers_only_signal this (ds : list delivery) :
  forall s : BLEServer,
  List.filter is_rendezvous_use (run_events this ds s).2 = [] /\
  length (List.filter is_advertising (run_events this ds s).2)
  = length (List.filter is_disconnect ds).
Proof.
  induction ds as [| d ds IH]; intros s.
  - split; reflexivity.
  - rewrite run_events_trace_cons, !List.filter_app.
    destruct (IH (state_after (dispatch this d) s)) as [Hr Ha].
    destruct (dispatch_effect_classes this d s) as (Hr' & Ha' & _ & _).
    rewrite Hr, Hr', Ha', length_app, Ha. split; [reflexivity |].
    cbn [List.filter]. destruct (is_disconnect d); reflexivity.
Qed.

(** X10: the callback object set by [setCallbacks] receives the two
    [onConnect] calls of every connect event and the [onDisconnect] call of
    every disconnect event, in the order of the deliveries, and nothing else;
    without a callback object nothing is called. *)
Theorem callbacks_follow_deliveries this (cbo : option ptr) (ds : list delivery) :
  forall s : BLEServer,
  List.filter is_callback (run_events this ds (setCallbacks cbo s)).2
  = flat_map (callbacks_for cbo) ds.
Proof.
  assert (H : forall s : BLEServer,
    m_pServerCallbacks s = cbo ->
    List.filter is_callback (run_events this ds s).2 = flat_map (callbacks_for cbo) ds).
  { induction ds as [| d ds IH]; intros s Hcb; [reflexivity |].
    rewrite run_events_trace_cons, List.filter_app.
    destruct (dispatch_effect_classes this d s) as (_ & _ & Hc & Hkeep).
    rewrite Hc, Hcb, IH by congruence. reflexivity. }
  intros s. apply H. reflexivity.
Qed.

(** ** More on the blocking calls *)

Lemma run_events_app_one this (pre : list delivery) (d : delivery) :
  forall s : BLEServer,
  (run_events this (pre ++ [d]) s).1
  = state_after (dispatch this d) (run_events this pre s).1.
Proof.
  induction pre as [| e pre IH]; intros s.
  - cbn [app]. rewrite run_events_cons. reflexivity.
  - cbn [app]. rewrite !run_events_cons. apply IH.
Qed.

(** The waiter of [i] wakes up at the first delivery that releases [i], in
    the state that the handlers have reached by then, and takes the value
    with it. *)
Lemma await_wakes this (i : sem_id) (pre : list delivery) :
  forall (s : BLEServer) (d : delivery) (post : list delivery),
  slot (sem_of i s) = Armed ->
  forallb (fun d => negb (signals i d)) pre = true ->
  signals i d = true ->
  await this i (pre ++ d :: post) s
  = Returned
      (m_value (sem_of i (run_events this (pre ++ [d]) s).1))
      (set_sem i (sem_consume (sem_of i (run_events this (pre ++ [d]) s).1))
         (run_events this (pre ++ [d]) s).1)
      (run_events this (pre ++ [d]) s).2.
Proof.
  induction pre as [| e pre IH]; intros s d post Harmed Hpre Hd.
  - cbn [app]. rewrite await_armed_cons by exact Harmed.
    rewrite await_signalled
      by (apply dispatch_sem_signalled; [exact Hd | exact Harmed]).
    rewrite run_events_cons, run_events_trace_cons.
    cbn [after run_events fst snd]. reflexivity.
  - cbn in Hpre. apply andb_prop in Hpre as [He Hpre].
    apply negb_true_iff in He.
    cbn [app]. rewrite await_armed_cons by exact Harmed.
    rewrite IH; [| rewrite dispatch_sem_other by exact He; exact Harmed
                 | exact Hpre | exact Hd].
    rewrite !run_events_cons, run_events_trace_cons. reflexivity.
Qed.

(** Without such a delivery the waiter stays suspended. *)
Lemma await_sleeps this (i : sem_id) (ds : list delivery) :
  forall s : BLEServer,
  slot (sem_of i s) = Armed ->
  forallb (fun d => negb (signals i d)) ds = true ->
  await this i ds s = Blocked (run_events this ds s).1 (run_events this ds s).2.
Proof.
  induction ds as [| d ds IH]; intros s Harmed Hds.
  - cbn. rewrite Harmed. reflexivity.
  - cbn in Hds. apply andb_prop in Hds as [Hd Hrest].
    apply negb_true_iff in Hd.
    rewrite await_armed_cons by exact Harmed.
    rewrite IH; [| rewrite dispatch_sem_other by exact Hd; exact Harmed
                 | exact Hrest].
    rewrite run_events_cons, run_events_trace_cons. reflexivity.
Qed.

Lemma armed_after_take (i : sem_id) (s : BLEServer) :
  slot (sem_of i (set_sem i (Sem Armed (m_value (sem_of i s))) s)) = Armed.
Proof. rewrite sem_of_set_sem. reflexivity. Qed.

(** X11: the blocking calls have no timeout: a call whose request was
    accepted does not return as long as the deliveries do not contain the
    event that completes it. *)
Theorem no_completion_no_return this (ds : list delivery) (s : BLEServer) :
  (slot (m_semaphoreOpenEvt s) = Idle ->
   forallb (fun d => negb (signals OpenEvt d)) ds = true ->
   forall address : esp_bd_addr_t,
   exists (s' : BLEServer) (tr : list effect),
     connect this address ESP_OK ds s = Blocked s' tr) /\
  (m_connectedCount s = 1 ->
   slot (m_semaphoreRssiCmplEvt s) = Idle ->
   forallb (fun d => negb (signals RssiCmplEvt d)) ds = true ->
   exists (s' : BLEServer) (tr : list effect),
     getRssi this ESP_OK ds s = Blocked s' tr) /\
  (slot (m_semaphoreCreateEvt s) = Idle ->
   forallb (fun d => negb (signals CreateEvt d)) ds = true ->
   forall (uuid : BLEUUID) (numHandles inst_id : Z),
   exists (s' : BLEServer) (tr : list effect),
     createService this uuid numHandles inst_id ds s = Blocked s' tr) /\
  (slot (m_semaphoreRegisterAppEvt s) = Idle ->
   forallb (fun d => negb (signals RegisterAppEvt d)) ds = true ->
   forall appId : Z,
   exists (s' : BLEServer) (tr : list effect),
     createApp this appId ds s = Blocked s' tr).
Proof.
  split; [| split; [| split]].
  - intros Hidle Hds address. unfold connect. run_call.
    rewrite (take_idle OpenEvt) by exact Hidle. cbn [after app].
    destruct (decide (ESP_OK ≠ ESP_OK)) as [Hne | _]; [contradiction |].
    rewrite await_sleeps by (apply armed_after_take || exact Hds).
    cbn. eauto.
  - intros Hcount Hidle Hds. unfold getRssi. run_call.
    destruct (decide (m_connectedCount s ≠ 1)) as [Hne | _]; [contradiction |].
    rewrite (take_idle RssiCmplEvt) by exact Hidle. cbn [after app].
    destruct (decide (ESP_OK ≠ ESP_OK)) as [Hne | _]; [contradiction |].
    rewrite await_sleeps by (apply armed_after_take || exact Hds).
    cbn. eauto.
  - intros Hidle Hds uuid numHandles inst_id.
    unfold createService, new_BLEService. run_call.
    rewrite (take_idle CreateEvt) by exact Hidle. cbn [after app].
    destruct (decide (getByUUID uuid 0 (m_serviceMap _) ≠ None)).
    all: cbn [after app]; rewrite await_sleeps by (reflexivity || exact Hds).
    all: cbn; eauto.
  - intros Hidle Hds appId. unfold createApp, registerApp. run_call.
    rewrite (take_idle RegisterAppEvt) by exact Hidle. cbn [after app].
    rewrite await_sleeps by (reflexivity || exact Hds).
    cbn. eauto.
Qed.

Lemma no_completion_no_return_witness :
  (exists (s' : BLEServer) (tr : list effect),
     connect 1000 sample_addr ESP_OK
       [Gatts (ESP_GATTS_MTU_EVT 7 185) 3] server_with_peer = Blocked s' tr) /\
  (exists (s' : BLEServer) (tr : list effect),
     getRssi 1000 ESP_OK
       [Gatts (ESP_GATTS_MTU_EVT 7 185) 3] server_with_peer = Blocked s' tr) /\
  (exists (s' : BLEServer) (tr : list effect),
     createService 1000 "180D" 15 0
       [Gatts (ESP_GATTS_MTU_EVT 7 185) 3] server_with_peer = Blocked s' tr) /\
  (exists (s' : BLEServer) (tr : list effect),
     createApp 1000 1 [Gatts (ESP_GATTS_MTU_EVT 7 185) 3] server_with_peer
     = Blocked s' tr).
Proof.
  destruct (no_completion_no_return 1000 [Gatts (ESP_GATTS_MTU_EVT 7 185) 3]
              server_with_peer) as (Hc & Hr & Hs & Ha).
  split; [apply Hc; reflexivity |].
  split; [apply Hr; reflexivity |].
  split; [apply Hs; reflexivity |].
  apply Ha; reflexivity.
Defined.

Lemma dispatch_keeps_appId this (d : delivery) (s : BLEServer) :
  m_appId (state_after (dispatch this d) s) = m_appId s.
Proof.
  destruct d as [event gatts_if | event]; destruct event.
  all: try (run_act; try destruct (m_pServerCallbacks s); reflexivity).
  change (m_appId (updatePeerMTU conn_id mtu0 s) = m_appId s).
  unfold updatePeerMTU. destruct (m_connectedServersMap s !! conn_id); reflexivity.
Qed.

Lemma run_events_keeps_appId this (ds : list delivery) :
  forall s : BLEServer, m_appId (run_events this ds s).1 = m_appId s.
Proof.
  induction ds as [| d ds IH]; intros s; [reflexivity |].
  rewrite run_events_cons, IH. apply dispatch_keeps_appId.
Qed.

(** X12: [createApp] returns at the first registration event; the server then
    holds the application identifier of the call and the interface of the
    event, and the registration rendezvous is empty again. *)
Theorem createApp_registers this (appId : Z) (pre : list delivery)
    (status app_id gatts_if : Z) (post : list delivery) (s : BLEServer) :
  slot (m_semaphoreRegisterAppEvt s) = Idle ->
  forallb (fun d => negb (signals RegisterAppEvt d)) pre = true ->
  exists (s' : BLEServer) (tr : list effect),
    createApp this appId
      (pre ++ Gatts (ESP_GATTS_REG_EVT status app_id) gatts_if :: post) s
    = Returned tt s' tr /\
    m_appId s' = appId /\
    getGattsIf s' = gatts_if /\
    slot (m_semaphoreRegisterAppEvt s') = Idle.
Proof.
  intros Hidle Hpre. unfold createApp, registerApp. run_call.
  rewrite (take_idle RegisterAppEvt) by exact Hidle. cbn [after app].
  rewrite await_wakes by (reflexivity || exact Hpre).
  cbn [after app]. do 2 eexists. split; [reflexivity |].
  rewrite run_events_app_one.
  split; [| split; reflexivity].
  change (m_appId (set_sem RegisterAppEvt ?x ?y)) with (m_appId y).
  rewrite dispatch_keeps_appId, run_events_keeps_appId. reflexivity.
Qed.

Lemma createApp_registers_witness :
  exists (s' : BLEServer) (tr : list effect),
    createApp 1000 1
      ([Gatts (ESP_GATTS_OPEN_EVT 0) 3] ++ Gatts (ESP_GATTS_REG_EVT 0 1) 4 :: [])
      BLEServer_new
    = Returned tt s' tr /\
    m_appId s' = 1 /\
    getGattsIf s' = 4 /\
    slot (m_semaphoreRegisterAppEvt s') = Idle.
Proof.
  apply (createApp_registers 1000 1 [Gatts (ESP_GATTS_OPEN_EVT 0) 3] 0 1 4 []
           BLEServer_new).
  - reflexivity.
  - reflexivity.
Defined.

Lemma dispatch_keeps_serviceMap this (d : delivery) (s : BLEServer) :
  signals CreateEvt d = false ->
  m_serviceMap (state_after (dispatch this d) s) = m_serviceMap s.
Proof.
  intros Hd. destruct d as [event gatts_if | event]; destruct event.
  all: try discriminate Hd.
  all: try (run_act; try destruct (m_pServerCallbacks s); reflexivity).
  change (m_serviceMap (updatePeerMTU conn_id mtu0 s) = m_serviceMap s).
  unfold updatePeerMTU. destruct (m_connectedServersMap s !! conn_id); reflexivity.
Qed.

Lemma run_events_keeps_serviceMap this (ds : list delivery) :
  forall s : BLEServer,
  forallb (fun d => negb (signals CreateEvt d)) ds = true ->
  m_serviceMap (run_events this ds s).1 = m_serviceMap s.
Proof.
  induction ds as [| d ds IH]; intros s Hds; [reflexivity |].
  cbn in Hds. apply andb_prop in Hds as [Hd Hrest].
  apply negb_true_iff in Hd.
  rewrite run_events_cons, IH by exact Hrest.
  apply dispatch_keeps_serviceMap. exact Hd.
Qed.

Lemma dispatch_no_fault this (d : delivery) (s : BLEServer) :
  reports_fault (effects_of (dispatch this d) s) = false.
Proof.
  destruct d as [event gatts_if | event]; destruct event.
  all: run_act; try destruct (m_pServerCallbacks s); reflexivity.
Qed.

Lemma run_events_no_fault this (ds : list delivery) :
  forall s : BLEServer, reports_fault (run_events this ds s).2 = false.
Proof.
  induction ds as [| d ds IH]; intros s; [reflexivity |].
  rewrite run_events_trace_cons. unfold reports_fault.
  rewrite existsb_app. fold (reports_fault (effects_of (dispatch this d) s)).
  rewrite dispatch_no_fault. apply IH.
Qed.

Lemma find_uuid_app_absent (uuid : BLEUUID) (p : nat) (l : list (BLEUUID * nat)) :
  find_uuid uuid l = None -> find_uuid uuid (l ++ [(uuid, p)]) = Some p.
Proof.
  induction l as [| [u q] l IH]; intros H; cbn in *.
  - destruct (decide (uuid = uuid)); [reflexivity | contradiction].
  - destruct (decide (u = uuid)); [discriminate | apply IH; exact H].
Qed.

(** X13: [createService] under a UUID that the registry does not resolve
    returns, at the creation-confirmed event of that UUID, a new service
    object without any warning; the registry then resolves the UUID and the
    handle of the event, if it was not bound before, to that object. *)
Theorem createService_fresh_uuid this (uuid : BLEUUID) (numHandles inst_id : Z)
    (pre : list delivery) (status service_handle inst_id' gatts_if : Z)
    (post : list delivery) (s : BLEServer) :
  getServiceByUUID uuid s = None ->
  m_handleMap (m_serviceMap s) !! service_handle = None ->
  slot (m_semaphoreCreateEvt s) = Idle ->
  forallb (fun d => negb (signals CreateEvt d)) pre = true ->
  exists (p : nat) (s' : BLEServer) (tr : list effect),
    createService this uuid numHandles inst_id
      (pre ++ Gatts (ESP_GATTS_CREATE_EVT status service_handle uuid inst_id')
                gatts_if :: post) s
    = Returned (Some p) s' tr /\
    reports_fault tr = false /\
    free_store s !! p = None /\
    getServiceByUUID uuid s' = Some p /\
    getByHandle service_handle (m_serviceMap s') = Some p /\
    slot (m_semaphoreCreateEvt s') = Idle.
Proof.
  unfold getServiceByUUID. intros Hfresh Hhandle Hidle Hpre.
  unfold createService, new_BLEService. run_call.
  rewrite (take_idle CreateEvt) by exact Hidle. cbn [after app].
  change (m_serviceMap (set_sem CreateEvt _ s)) with (m_serviceMap s).
  destruct (decide (getByUUID uuid 0 (m_serviceMap s) ≠ None)) as [Hdup | _];
    [contradiction |].
  cbn [after app].
  rewrite await_wakes by (reflexivity || exact Hpre).
  cbn [after app]. do 3 eexists. split; [reflexivity |].
  rewrite run_events_app_one.
  match goal with
  | |- context [run_events this pre ?x] => set (s0 := x)
  end.
  assert (Hmap : m_serviceMap (run_events this pre s0).1
                 = setByUUID uuid (Some (length (free_store s))) (m_serviceMap s))
    by (rewrite run_events_keeps_serviceMap by exact Hpre; reflexivity).
  assert (Hfind : getByUUID uuid inst_id' (m_serviceMap (run_events this pre s0).1)
                  = Some (length (free_store s))).
  { rewrite Hmap. unfold getByUUID, setByUUID. cbn.
    apply find_uuid_app_absent. exact Hfresh. }
  assert (Hafter :
    m_serviceMap
      (state_after
         (dispatch this
            (Gatts (ESP_GATTS_CREATE_EVT status service_handle uuid inst_id')
               gatts_if)) (run_events this pre s0).1)
    = setByHandle service_handle (Some (length (free_store s)))
        (setByUUID uuid (Some (length (free_store s))) (m_serviceMap s))).
  { run_act. rewrite Hfind, Hmap. reflexivity. }
  split; [| split; [| split; [| split]]].
  - unfold reports_fault. cbn [existsb is_fault_report orb].
    rewrite existsb_app. cbn [existsb is_fault_report orb]. rewrite orb_false_r.
    apply (run_events_no_fault this _ s0).
  - apply lookup_ge_None. cbn. lia.
  - change (m_serviceMap (set_sem CreateEvt ?x ?y)) with (m_serviceMap y).
    rewrite Hafter. unfold getByUUID, setByHandle, setByUUID. cbn.
    apply find_uuid_app_absent. exact Hfresh.
  - change (m_serviceMap (set_sem CreateEvt ?x ?y)) with (m_serviceMap y).
    rewrite Hafter. unfold getByHandle, setByHandle, setByUUID. cbn.
    rewrite Hhandle, lookup_insert_eq. reflexivity.
  - reflexivity.
Qed.

Lemma createService_fresh_uuid_witness :
  exists (p : nat) (s' : BLEServer) (tr : list effect),
    createService 1000 "180F" 15 0
      ([Gatts (ESP_GATTS_CONNECT_EVT 7 sample_addr) 3]
       ++ Gatts (ESP_GATTS_CREATE_EVT 0 43 "180F" 0) 3 :: [])
      server_with_service
    = Returned (Some p) s' tr /\
    reports_fault tr = false /\
    free_store server_with_service !! p = None /\
    getServiceByUUID "180F" s' = Some p /\
    getByHandle 43 (m_serviceMap s') = Some p /\
    slot (m_semaphoreCreateEvt s') = Idle.
Proof.
  apply (createService_fresh_uuid 1000 "180F" 15 0
           [Gatts (ESP_GATTS_CONNECT_EVT 7 sample_addr) 3] 0 43 0 3 []
           server_with_service).
  - reflexivity.
  - reflexivity.
  - reflexivity.
  - reflexivity.
Defined.

Lemma connect_completes this (address : esp_bd_addr_t) (pre : list delivery)
    (status gatts_if : Z) (post : list delivery) (s : BLEServer) :
  slot (m_semaphoreOpenEvt s) = Idle ->
  forallb (fun d => negb (signals OpenEvt d)) pre = true ->
  exists (s' : BLEServer) (tr : list effect),
    connect this address ESP_OK
      (pre ++ Gatts (ESP_GATTS_OPEN_EVT status) gatts_if :: post) s
    = Returned (bool_decide (to_uint32 status = ESP_GATT_OK)) s' tr /\
    slot (m_semaphoreOpenEvt s') = Idle.
Proof.
  intros Hidle Hpre. unfold connect. run_call.
  rewrite (take_idle OpenEvt) by exact Hidle. cbn [after app].
  destruct (decide (ESP_OK ≠ ESP_OK)) as [Hne | _]; [contradiction |].
  rewrite await_wakes by (apply armed_after_take || exact Hpre || reflexivity).
  cbn [after app]. rewrite run_events_app_one, open_event_value.
  do 2 eexists. split; reflexivity.
Qed.

(** X14: a [connect] that has returned through its open-complete event
    leaves the open rendezvous empty, so that the next [connect] goes through
    and reports the status of its own open-complete event. *)
Theorem connect_again this (a1 a2 : esp_bd_addr_t) (pre1 pre2 : list delivery)
    (st1 st2 g1 g2 : Z) (post1 post2 : list delivery) (s : BLEServer) :
  slot (m_semaphoreOpenEvt s) = Idle ->
  forallb (fun d => negb (signals OpenEvt d)) pre1 = true ->
  forallb (fun d => negb (signals OpenEvt d)) pre2 = true ->
  in_uint32 st2 ->
  let first :=
    connect this a1 ESP_OK (pre1 ++ Gatts (ESP_GATTS_OPEN_EVT st1) g1 :: post1) s in
  slot (m_semaphoreOpenEvt (state_of first)) = Idle /\
  result_of
    (connect this a2 ESP_OK (pre2 ++ Gatts (ESP_GATTS_OPEN_EVT st2) g2 :: post2)
       (state_of first))
  = Some (bool_decide (st2 = ESP_GATT_OK)).
Proof.
  intros Hidle Hpre1 Hpre2 Hst2. cbv zeta.
  destruct (connect_completes this a1 pre1 st1 g1 post1 s Hidle Hpre1)
    as (s1 & tr1 & -> & Hidle1).
  cbn [state_of]. split; [exact Hidle1 |].
  destruct (connect_completes this a2 pre2 st2 g2 post2 s1 Hidle1 Hpre2)
    as (s2 & tr2 & -> & _).
  cbn [result_of]. rewrite to_uint32_small by exact Hst2. reflexivity.
Qed.

Lemma connect_again_witness :
  result_of
    (connect 1000 sample_addr ESP_OK
       ([Gatts (ESP_GATTS_MTU_EVT 7 185) 3] ++ Gatts (ESP_GATTS_OPEN_EVT 0) 3 :: [])
       (state_of
          (connect 1000 sample_addr ESP_OK
             ([] ++ Gatts (ESP_GATTS_OPEN_EVT 133) 3 :: []) server_with_peer)))
  = Some (bool_decide (0 = ESP_GATT_OK)).
Proof.
  apply (connect_again 1000 sample_addr sample_addr []
           [Gatts (ESP_GATTS_MTU_EVT 7 185) 3] 133 0 3 3 [] [] server_with_peer).
  - reflexivity.
  - reflexivity.
  - reflexivity.
  - unfold in_uint32. lia.
Defined.



Lemma memcpy_full (dst src : list Z) (n : nat) :
  length src = n -> length dst = n -> memcpy dst src n = src.
Proof.
  intros <- Hdst. unfold memcpy.
  rewrite firstn_all, skipn_all2 by lia. apply app_nil_r.
Qed.

(** X16: [getRssi] asks the controller for the signal strength of the peer
    of the last connect event: called after the first connection, it sends
    its request to the address that the connect event carried. *)
Theorem getRssi_asks_last_connected this (conn_id : Z) (bda : esp_bd_addr_t)
    (gatts_if rc : Z) (ds : list delivery) (s : BLEServer) :
  m_connectedCount s = 0 ->
  length bda = 6%nat ->
  length (m_client_addr s) = 6%nat ->
  slot (m_semaphoreRssiCmplEvt s) = Idle ->
  In (ERequest (esp_ble_gap_read_rssi bda))
    (trace_of
       (getRssi this rc ds
          (state_after
             (handleGATTServerEvent this (ESP_GATTS_CONNECT_EVT conn_id bda)
                gatts_if) s))).
Proof.
  intros Hcount Hbda Haddr Hidle.
  set (s1 := state_after _ s).
  assert (Hc1 : m_connectedCount s1 = 1).
  { unfold s1. rewrite count_after_connect, Hcount. reflexivity. }
  assert (Ha1 : m_client_addr s1 = bda).
  { unfold s1. run_act. destruct (m_pServerCallbacks s); cbn;
      apply memcpy_full; assumption. }
  assert (Hi1 : slot (m_semaphoreRssiCmplEvt s1) = Idle).
  { unfold s1. run_act. destruct (m_pServerCallbacks s); exact Hidle. }
  clearbody s1. unfold getRssi. run_call.
  destruct (decide (m_connectedCount s1 ≠ 1)) as [Hne | _]; [contradiction |].
  rewrite (take_idle RssiCmplEvt) by exact Hi1. cbn [after app].
  unfold getPeerAddress.
  change (m_client_addr (set_sem RssiCmplEvt ?x s1)) with (m_client_addr s1).
  rewrite Ha1.
  destruct (decide (rc ≠ ESP_OK)).
  - cbn. auto.
  - match goal with
    | |- context [await this RssiCmplEvt ds ?x] =>
        destruct (await this RssiCmplEvt ds x)
    end; cbn; auto.
Qed.

Lemma getRssi_asks_last_connected_witness :
  In (ERequest (esp_ble_gap_read_rssi sample_addr))
    (trace_of
       (getRssi 1000 0 []
          (state_after
             (handleGATTServerEvent 1000 (ESP_GATTS_CONNECT_EVT 7 sample_addr) 3)
             BLEServer_new))).
Proof.
  apply (getRssi_asks_last_connected 1000 7 sample_addr 3 0 [] BLEServer_new).
  - reflexivity.
  - reflexivity.
  - reflexivity.
  - reflexivity.
Defined.
